(** * programs/buck_repo.py: the launcher's self-management layer

    A shallow embedding of [BuckRepo] (the checkout-and-clean state machine,
    the build step, the version-control queries, version-identity resolution
    and the resource registry), with the properties of the specification
    stated and settled against it. *)

From Stdlib Require Import ZArith Ascii String.
From stdpp Require Import base option list strings gmap pretty.

Local Open Scope string_scope.
Local Open Scope Z_scope.

(** ** Python string primitives used by the module *)

Module PyStr.

(** Truthiness of a [str]: only the empty string is falsy. *)
Definition truthy (s : string) : bool :=
  match s with
  | EmptyString => false
  | String _ _ => true
  end.

(** Truthiness of an [Optional[str]] such as [os.environ.get(k)]. *)
Definition truthy_opt (o : option string) : bool :=
  match o with
  | None => false
  | Some s => truthy s
  end.

Definition eqb_opt (o : option string) (s : string) : bool :=
  match o with
  | None => false
  | Some x => String.eqb x s
  end.

(** [str.lower] on ASCII text. *)
Definition lower_char (c : ascii) : ascii :=
  let n := nat_of_ascii c in
  if ((65 <=? n)%nat && (n <=? 90)%nat)%bool then ascii_of_nat (n + 32) else c.

Fixpoint lower (s : string) : string :=
  match s with
  | EmptyString => EmptyString
  | String c r => String (lower_char c) (lower r)
  end.

(** Whitespace as [str.strip()] sees it: space, \t, \n, \v, \f, \r. *)
Definition is_space (c : ascii) : bool :=
  let n := nat_of_ascii c in
  ((n =? 32)%nat || ((9 <=? n)%nat && (n <=? 13)%nat))%bool.

Fixpoint lstrip (s : string) : string :=
  match s with
  | EmptyString => EmptyString
  | String c r => if is_space c then lstrip r else s
  end.

Fixpoint rstrip (s : string) : string :=
  match s with
  | EmptyString => EmptyString
  | String c r =>
      match rstrip r with
      | EmptyString => if is_space c then EmptyString else String c EmptyString
      | r' => String c r'
      end
  end.

Definition strip (s : string) : string := rstrip (lstrip s).

(** [s.split(sep)] for a one-character separator. *)
Fixpoint split (sep : ascii) (s : string) : list string :=
  match s with
  | EmptyString => [EmptyString]
  | String c r =>
      if Ascii.eqb c sep then EmptyString :: split sep r
      else match split sep r with
           | h :: t => String c h :: t
           | [] => [String c EmptyString]
           end
  end.

Fixpoint endswith_char (s : string) (c : ascii) : bool :=
  match s with
  | EmptyString => false
  | String d EmptyString => Ascii.eqb d c
  | String _ r => endswith_char r c
  end.

Definition startswith_char (s : string) (c : ascii) : bool :=
  match s with
  | EmptyString => false
  | String d _ => Ascii.eqb d c
  end.

End PyStr.

(** ** [os.path.join] (posixpath) *)

Module PosixPath.

Definition join2 (path b : string) : string :=
  if PyStr.startswith_char b "/" then b
  else if (negb (PyStr.truthy path) || PyStr.endswith_char path "/")%bool
       then path +:+ b
       else path +:+ "/" +:+ b.

(** [os.path.join(a, *p)]: the loop over the components, left to right. *)
Definition join (a : string) (p : list string) : string :=
  foldl join2 a p.

End PosixPath.

(** ** The static resource registry *)

Definition RESOURCES : gmap string string :=
  list_to_map
    [ ("abi_processor_classes", "build/abi_processor/classes");
      ("android_agent_path", "assets/android/agent.apk");
      ("buck_server", "bin/buck");
      ("buck_build_type_info", "config/build_type/LOCAL_ANT/type.txt");
      ("dx", "third-party/java/dx/etc/dx");
      ("jacoco_agent_jar", "third-party/java/jacoco/jacocoagent.jar");
      ("libjcocoa.dylib", "third-party/java/ObjCBridge/libjcocoa.dylib");
      ("logging_config_file", "config/logging.properties.st");
      ("native_exopackage_fake_path", "assets/android/native-exopackage-fakes.apk");
      ("path_to_asm_jar", "third-party/java/asm/asm-debug-all-5.0.3.jar");
      ("path_to_rawmanifest_py", "src/com/facebook/buck/util/versioncontrol/rawmanifest.py");
      ("path_to_intellij_py", "src/com/facebook/buck/ide/intellij/deprecated/intellij.py");
      ("path_to_pex", "src/com/facebook/buck/python/make_pex.py");
      ("path_to_sh_binary_template", "src/com/facebook/buck/shell/sh_binary_template");
      ("path_to_static_content", "webserver/static");
      ("report_generator_jar", "build/report-generator.jar");
      ("testrunner_classes", "build/testrunner/classes");
      ("path_to_pathlib_py", "third-party/py/pathlib/pathlib.py");
      ("path_to_pywatchman", "third-party/py/pywatchman");
      ("path_to_typing", "third-party/py/typing/python2") ].

(** ** The world outside the process *)

(** What the subprocesses and the module's own file operations can change:
    the revision the checkout is at, and the regular files by path. *)
Record Sys := {
  head : string;
  files : gmap string string;
}.

(** Everything the module reads from its surroundings.  The subprocesses are
    oracles: an exit status, and for those that write to the checkout the
    state they leave behind.  [git cat-file -e], [git fetch] and
    [git ls-files -m] leave [head] and [files] alone. *)
Record World := {
  environ : gmap string string;               (* os.environ *)
  platform : string;                          (* sys.platform *)
  which : string -> option string;            (* subprocutils.which *)
  stdout_isatty : bool;                       (* sys.stdout.isatty() *)
  stdin_line : string;                        (* what raw_input() returns *)
  has_git_dir : string -> bool;               (* os.path.exists(d) and os.path.isdir(d) *)
  platform_dirname : string -> string;        (* platform_path(os.path.dirname(p)) *)
  git_cat_file : string -> Sys -> Z;          (* git cat-file -e <revision> *)
  git_fetch : list string -> Sys -> Z;        (* git fetch <args> *)
  git_checkout : string -> Sys -> Z * Sys;    (* git checkout --quiet <revision> *)
  git_ls_files_m : Sys -> string;             (* output of git ls-files -m *)
  git_clean_fd : Sys -> Z * Sys;              (* git clean -fd *)
  ant_clean : Sys -> Z * Sys;                 (* <ant> clean *)
  ant_build : Sys -> Z * Sys;                 (* <ant> *)
  git_revision_timestamp : Sys -> Z;          (* buck_version.get_git_revision_timestamp *)
  known_revision : Sys -> option string;      (* the known revision the checkout matches, if any *)
  dirty_buck_version : Sys -> string;         (* buck_version.get_dirty_buck_version *)
}.

(** ** Effects: diagnostics, exceptions, the trace *)

(** The messages printed on stderr. *)
Inductive Diag :=
  | RevisionNotAvailable (revision : string)
  | UpdatingItself (current required : string)
  | AntFailed (buck_dir log_path : string)
  | NotBuilt
  | AllDone
  | FakingVersion (version : string)
  | LocalModifications
  | DirectoryDirty
  | AskClean.

(** The messages carried by [BuckToolException]. *)
Inductive ToolError :=
  | FetchFailed
  | UpdateFailed (revision : string)
  | NoAnt (brew_hint : bool)
  | RemedyGitClean (buck_dir : string)
  | RemedyRmBuild (buck_dir : string).

Inductive Exn :=
  | BuckToolException (e : ToolError)
  | RestartBuck
  | CalledProcessError
  | KeyError (key : string).

(** Calls into the [buck_version] module. *)
Inductive VersionQuery :=
  | GetGitRevision
  | GetGitRevisionTimestamp
  | GetCleanBuckVersion (allow_dirty : bool)
  | GetDirtyBuckVersion.

Inductive Event :=
  | Print (d : Diag)
  | Spawn (argv : list string) (cwd : string)
  | PathExists (path : string)
  | Remove (path : string)
  | OpenWrite (path : string)
  | OpenRead (path : string)
  | RawInput
  | Query (q : VersionQuery).

Record State := {
  sys : Sys;
  trace : list Event;
}.

Inductive Res (A : Type) :=
  | Return (a : A)
  | Raise (e : Exn).
Arguments Return {A} a.
Arguments Raise {A} e.

Definition M (A : Type) : Type := State -> Res A * State.

#[global] Instance M_ret : MRet M := fun A a s => (Return a, s).

#[global] Instance M_bind : MBind M := fun A B f m s =>
  match m s with
  | (Return a, s') => f a s'
  | (Raise e, s') => (Raise e, s')
  end.

Definition raise {A} (e : Exn) : M A := fun s => (Raise e, s).

(** [try: body / except <caught>: handler]. *)
Definition try_except {A} (body : M A) (caught : Exn -> bool) (handler : M A) : M A :=
  fun s =>
    match body s with
    | (Raise e, s') => if caught e then handler s' else (Raise e, s')
    | r => r
    end.

Definition is_CalledProcessError (e : Exn) : bool :=
  match e with
  | CalledProcessError => true
  | _ => false
  end.

Definition emit (e : Event) : M unit :=
  fun s => (Return (), {| sys := sys s; trace := trace s ++ [e] |}).

Definition get_sys : M Sys := fun s => (Return (sys s), s).

Definition put_sys (y : Sys) : M unit :=
  fun s => (Return (), {| sys := y; trace := trace s |}).

Definition print (d : Diag) : M unit := emit (Print d).

(** [subprocess.call(argv, cwd=cwd)]: the exit status, and the state the
    child leaves. *)
Definition subprocess_call (argv : list string) (cwd : string)
    (child : Sys -> Z * Sys) : M Z :=
  emit (Spawn argv cwd);;
  y ← get_sys;
  let '(returncode, y') := child y in
  put_sys y';;
  mret returncode.

(** [subprocess.check_call]: a non-zero exit raises. *)
Definition subprocess_check_call (argv : list string) (cwd : string)
    (child : Sys -> Z * Sys) : M unit :=
  returncode ← subprocess_call argv cwd child;
  if returncode =? 0 then mret () else raise CalledProcessError.

(** [subprocutils.check_output(argv, cwd=cwd)]: what the child prints. *)
Definition check_output (argv : list string) (cwd : string)
    (child : Sys -> string) : M string :=
  emit (Spawn argv cwd);;
  y ← get_sys;
  mret (child y).

(** A child that only reports a status or prints. *)
Definition probe (f : Sys -> Z) (y : Sys) : Z * Sys := (f y, y).

Definition os_path_exists (path : string) : M bool :=
  emit (PathExists path);;
  y ← get_sys;
  mret (bool_decide (is_Some (files y !! path))).

Definition os_remove (path : string) : M unit :=
  emit (Remove path);;
  y ← get_sys;
  put_sys {| head := head y; files := delete path (files y) |}.

(** [open(path, 'w')]: create or truncate. *)
Definition open_w (path : string) : M unit :=
  emit (OpenWrite path);;
  y ← get_sys;
  put_sys {| head := head y; files := <[path := ""]> (files y) |}.

(** [open(path).read()] of a file known to exist. *)
Definition read_file (path : string) : M string :=
  emit (OpenRead path);;
  y ← get_sys;
  mret (default "" (files y !! path)).

(** ** The [BuckRepo] object *)

(** What the module uses of [buck_project].  [buck_version] is the parsed
    [.buckversion]: revision first, then an optional branch; a missing file
    is the empty list (both are falsy). *)
Record BuckProject := {
  buck_version : list string;
  has_no_buck_check : bool;
  buck_out_log_dir : string;                  (* get_buck_out_log_dir() *)
}.

Record BuckRepo := {
  _buck_project : BuckProject;
  _buck_dir : string;
  _build_success_file : string;
  _is_git : bool;
  _is_buck_repo_dirty_override : option string;
}.

Section Methods.

Variable w : World.

(** Whether [git ls-files -m] lists anything: [bool(output.strip())]. *)
Definition tree_modified (y : Sys) : bool :=
  PyStr.truthy (PyStr.strip (git_ls_files_m w y)).

(** Modelled from the spec: [buck_version.get_clean_buck_version] is not
    part of this module.  A clean identity is computable only if the
    checkout matches a known revision, and then only with no local
    modifications or with the dirty override permitting it. *)
Definition get_clean_buck_version (y : Sys) (allow_dirty : bool) : option string :=
  match known_revision w y with
  | Some r => if (allow_dirty || negb (tree_modified y))%bool then Some r else None
  | None => None
  end.

Definition _revision_exists (self : BuckRepo) (revision : string) : M bool :=
  returncode ← subprocess_call ["git"; "cat-file"; "-e"; revision] (_buck_dir self)
                 (probe (git_cat_file w revision));
  mret (returncode =? 0).

Definition _get_git_revision (self : BuckRepo) : M string :=
  if negb (_is_git self) then mret "N/A"
  else
    emit (Query GetGitRevision);;
    y ← get_sys;
    mret (head y).

Definition _has_local_changes (self : BuckRepo) : M bool :=
  if negb (_is_git self) then mret false
  else
    output ← check_output ["git"; "ls-files"; "-m"] (_buck_dir self) (git_ls_files_m w);
    mret (PyStr.truthy (PyStr.strip output)).

Definition _get_git_commit_timestamp (self : BuckRepo) : M Z :=
  if (PyStr.truthy_opt (_is_buck_repo_dirty_override self) || negb (_is_git self))%bool
  then mret (-1)
  else
    emit (Query GetGitRevisionTimestamp);;
    y ← get_sys;
    mret (git_revision_timestamp w y).

Definition _check_for_ant (self : BuckRepo) : M string :=
  let ant := which w "ant" in
  if negb (PyStr.truthy_opt ant)
  then raise (BuckToolException (NoAnt (String.eqb (platform w) "darwin")))
  else mret (default "" ant).

Definition _print_ant_failure_and_exit (self : BuckRepo) (ant_log_path : string) : M unit :=
  print (AntFailed (_buck_dir self) ant_log_path);;
  if _is_git self
  then raise (BuckToolException (RemedyGitClean (_buck_dir self)))
  else raise (BuckToolException (RemedyRmBuild (_buck_dir self))).

(** [exitcode is not 0] compares a process status with the small integer 0:
    it is [exitcode != 0]. *)
Definition _run_ant_clean (self : BuckRepo) (ant : string) : M unit :=
  let clean_log_path :=
    PosixPath.join (buck_out_log_dir (_buck_project self)) ["ant-clean.log"] in
  open_w clean_log_path;;
  exitcode ← subprocess_call [ant; "clean"] (_buck_dir self) (ant_clean w);
  if negb (exitcode =? 0) then _print_ant_failure_and_exit self clean_log_path
  else mret ().

Definition _run_ant (self : BuckRepo) (ant : string) : M unit :=
  let ant_log_path :=
    PosixPath.join (buck_out_log_dir (_buck_project self)) ["ant.log"] in
  open_w ant_log_path;;
  exitcode ← subprocess_call [ant] (_buck_dir self) (ant_build w);
  if negb (exitcode =? 0) then _print_ant_failure_and_exit self ant_log_path
  else mret ().

Definition _checkout_and_clean (self : BuckRepo) (revision : string)
    (branch : option string) : M unit :=
  found ← _revision_exists self revision;
  (if negb found then
     print (RevisionNotAvailable revision);;
     let remote :=
       if negb (PyStr.truthy_opt branch) then ["--all"]
       else ["origin"; default "" branch] in
     let git_command := (["git"; "fetch"] ++ remote)%list in
     try_except
       (subprocess_check_call git_command (_buck_dir self)
          (probe (git_fetch w remote)))
       is_CalledProcessError
       (raise (BuckToolException FetchFailed))
   else mret ());;
  current_revision ← _get_git_revision self;
  if negb (String.eqb current_revision revision) then
    print (UpdatingItself current_revision revision);;
    try_except
      (subprocess_check_call ["git"; "checkout"; "--quiet"; revision] (_buck_dir self)
         (git_checkout w revision))
      is_CalledProcessError
      (raise (BuckToolException (UpdateFailed revision)));;
    marked ← os_path_exists (_build_success_file self);
    (if (marked : bool) then os_remove (_build_success_file self) else mret ());;
    ant ← _check_for_ant self;
    _run_ant_clean self ant;;
    raise RestartBuck
  else mret ().

Definition _build (self : BuckRepo) : M unit :=
  marked ← os_path_exists (_build_success_file self);
  if negb marked then
    print NotBuilt;;
    ant ← _check_for_ant self;
    _run_ant_clean self ant;;
    _run_ant self ant;;
    print AllDone
  else mret ().

Definition __init__ (buck_bin_dir : string) (buck_project : BuckProject) : M BuckRepo :=
  let buck_dir := platform_dirname w buck_bin_dir in
  let self :=
    {| _buck_project := buck_project;
       _buck_dir := buck_dir;
       _build_success_file := PosixPath.join buck_dir ["build"; "successful-build"];
       _is_git :=
         (has_git_dir w (PosixPath.join buck_dir [".git"])
          && PyStr.truthy_opt (which w "git")
          && negb (String.eqb (platform w) "cygwin"))%bool;
       _is_buck_repo_dirty_override := environ w !! "BUCK_REPOSITORY_DIRTY" |} in
  let buck_version := buck_version buck_project in
  (if (_is_git self && negb (has_no_buck_check buck_project)
       && negb (bool_decide (buck_version = [])))%bool
   then
     let revision := default "" (buck_version !! 0%nat) in
     let branch := if (1 <? length buck_version)%nat then buck_version !! 1%nat else None in
     _checkout_and_clean self revision branch
   else mret ());;
  _build self;;
  mret self.

Definition _join_buck_dir (self : BuckRepo) (relative_path : string) : string :=
  PosixPath.join (_buck_dir self) (PyStr.split "/" relative_path).

(** [RESOURCES[resource.name]] raises [KeyError] for a name that is not a
    key. *)
Definition _get_resource (self : BuckRepo) (name : string) : M string :=
  match RESOURCES !! name with
  | Some relative_path => mret (_join_buck_dir self relative_path)
  | None => raise (KeyError name)
  end.

Definition _get_buck_version_uid (self : BuckRepo) : M string :=
  let fake_buck_version := environ w !! "BUCK_FAKE_VERSION" in
  fake_buck_version ←
    (if negb (PyStr.truthy_opt fake_buck_version) then
       let fake_buck_version_file_path :=
         PosixPath.join (_buck_dir self) [".fakebuckversion"] in
       present ← os_path_exists fake_buck_version_file_path;
       if (present : bool) then
         content ← read_file fake_buck_version_file_path;
         mret (Some (PyStr.strip content))
       else mret fake_buck_version
     else mret fake_buck_version);
  if PyStr.truthy_opt fake_buck_version then
    print (FakingVersion (default "" fake_buck_version));;
    mret (default "" fake_buck_version)
  else
    let allow_dirty := PyStr.eqb_opt (_is_buck_repo_dirty_override self) "1" in
    emit (Query (GetCleanBuckVersion allow_dirty));;
    y ← get_sys;
    match get_clean_buck_version y allow_dirty with
    | Some clean_version => mret clean_version
    | None =>
        if (has_no_buck_check (_buck_project self)
            || bool_decide (buck_version (_buck_project self) = []))%bool
        then
          emit (Query GetDirtyBuckVersion);;
          y ← get_sys;
          mret (dirty_buck_version w y)
        else
          changed ← _has_local_changes self;
          (if (changed : bool) then
             print LocalModifications;;
             _ ← subprocess_call ["git"; "ls-files"; "-m"] (_buck_dir self)
                   (probe (fun _ => 0));
             mret ()
           else if negb (PyStr.eqb_opt (environ w !! "BUCK_CLEAN_REPO_IF_DIRTY") "NO") then
             print DirectoryDirty;;
             if stdout_isatty w then
               print AskClean;;
               emit RawInput;;
               let choice := PyStr.lower (stdin_line w) in
               if String.eqb choice "y" then
                 _ ← subprocess_call ["git"; "clean"; "-fd"] (_buck_dir self)
                       (git_clean_fd w);
                 raise RestartBuck
               else mret ()
             else mret ()
           else mret ());;
          emit (Query GetDirtyBuckVersion);;
          y ← get_sys;
          mret (dirty_buck_version w y)
    end.

End Methods.

(** ** Observing a run *)

(** A run starts from a system state with an empty trace. *)
Definition fresh (y : Sys) : State := {| sys := y; trace := [] |}.

(** What [_get_git_revision] answers in state [y]. *)
Definition current_revision (self : BuckRepo) (y : Sys) : string :=
  if _is_git self then head y else "N/A".

Definition marker_present (self : BuckRepo) (y : Sys) : bool :=
  bool_decide (is_Some (files y !! _build_success_file self)).

Definition drop_marker (self : BuckRepo) (y : Sys) : Sys :=
  {| head := head y; files := delete (_build_success_file self) (files y) |}.

Definition with_log (path : string) (y : Sys) : Sys :=
  {| head := head y; files := <[path := ""]> (files y) |}.

Definition clean_log_path (self : BuckRepo) : string :=
  PosixPath.join (buck_out_log_dir (_buck_project self)) ["ant-clean.log"].

Definition ant_log_path (self : BuckRepo) : string :=
  PosixPath.join (buck_out_log_dir (_buck_project self)) ["ant.log"].

Definition fetch_args (branch : option string) : list string :=
  if negb (PyStr.truthy_opt branch) then ["--all"] else ["origin"; default "" branch].

(** The revision is in the local store, or the fetch that follows a failed
    probe succeeds: the method gets past its first step. *)
Definition revision_available (w : World) (revision : string) (branch : option string)
    (y : Sys) : bool :=
  ((git_cat_file w revision y =? 0) || (git_fetch w (fetch_args branch) y =? 0))%bool.

Definition ant_found (w : World) : bool := PyStr.truthy_opt (which w "ant").

(** The marker path as [__init__] computes it. *)
Definition marker_path_of (buck_dir : string) : string :=
  PosixPath.join buck_dir ["build"; "successful-build"].

(** The [_is_git] flag as [__init__] computes it. *)
Definition detects_git (w : World) (buck_dir : string) : bool :=
  (has_git_dir w (PosixPath.join buck_dir [".git"])
   && PyStr.truthy_opt (which w "git")
   && negb (String.eqb (platform w) "cygwin"))%bool.

(** What [_print_ant_failure_and_exit] raises. *)
Definition ant_remedy (self : BuckRepo) : Exn :=
  BuckToolException
    (if _is_git self then RemedyGitClean (_buck_dir self) else RemedyRmBuild (_buck_dir self)).

Definition fake_version_file_path (self : BuckRepo) : string :=
  PosixPath.join (_buck_dir self) [".fakebuckversion"].

(** The version the dot-file holds, if the file is there. *)
Definition fake_file_version (self : BuckRepo) (y : Sys) : option string :=
  PyStr.strip <$> files y !! fake_version_file_path self.

(** No fake version from the environment nor from the dot-file. *)
Definition no_fake_override (w : World) (self : BuckRepo) (y : Sys) : bool :=
  (negb (PyStr.truthy_opt (environ w !! "BUCK_FAKE_VERSION"))
   && negb (PyStr.truthy_opt (fake_file_version self y)))%bool.

(** *** Classes of events *)

Definition is_checkout (e : Event) : bool :=
  match e with
  | Spawn (prog :: sub :: _ :: _) _ =>
      (String.eqb prog "git" && String.eqb sub "checkout")%bool
  | _ => false
  end.

Definition is_remove (e : Event) : bool :=
  match e with
  | Remove _ => true
  | _ => false
  end.

(** Anything of the external build: opening a log, [ant clean], [ant]. *)
Definition is_ant (e : Event) : bool :=
  match e with
  | OpenWrite _ | Spawn [_] _ | Spawn [_; _] _ => true
  | _ => false
  end.

(** The build step proper: [ant] without a target, or opening its log. *)
Definition is_build_step (self : BuckRepo) (e : Event) : bool :=
  match e with
  | Spawn [_] _ => true
  | OpenWrite p => String.eqb p (ant_log_path self)
  | _ => false
  end.

(** The cleanup prompt: the question, or reading the answer. *)
Definition is_prompt (e : Event) : bool :=
  match e with
  | Print AskClean | RawInput => true
  | _ => false
  end.

Definition is_git_clean (e : Event) : bool :=
  match e with
  | Spawn [prog; sub; _] _ => (String.eqb prog "git" && String.eqb sub "clean")%bool
  | _ => false
  end.

(** A git subprocess (every git command line of the module has at least
    three words), or a call into [buck_version], which runs git. *)
Definition is_git_call (e : Event) : bool :=
  match e with
  | Spawn (prog :: _ :: _ :: _) _ => String.eqb prog "git"
  | Query _ => true
  | _ => false
  end.

(** *** Relative paths *)

Fixpoint has_char (c : ascii) (s : string) : bool :=
  match s with
  | EmptyString => false
  | String d r => (Ascii.eqb d c || has_char c r)%bool
  end.

(** ["/c1/c2/..."] for components [c1; c2; ...]. *)
Fixpoint slash_all (cs : list string) : string :=
  match cs with
  | [] => ""
  | c :: r => "/" +:+ c +:+ slash_all r
  end.

(** A path component that is not empty and holds no separator. *)
Definition plain_component (c : string) : bool :=
  (PyStr.truthy c && negb (has_char "/" c))%bool.

(** ** Example surroundings *)

(** A Linux machine with git and ant on the path, the checkout under
    [/opt/buck], every git command succeeding; [ant clean] exits with
    [clean_status]; neither ant run touches the files. *)
Definition example_world (env : gmap string string) (tty : bool) (answer : string)
    (clean_status : Z) (modified : string) (known : option string) : World :=
  {| environ := env;
     platform := "linux";
     which := fun prog => Some ("/usr/bin/" +:+ prog);
     stdout_isatty := tty;
     stdin_line := answer;
     has_git_dir := fun _ => true;
     platform_dirname := fun _ => "/opt/buck";
     git_cat_file := fun _ _ => 0;
     git_fetch := fun _ _ => 0;
     git_checkout := fun revision y => (0, {| head := revision; files := files y |});
     git_ls_files_m := fun _ => modified;
     git_clean_fd := fun y => (0, y);
     ant_clean := fun y => (clean_status, y);
     ant_build := fun y => (0, y);
     git_revision_timestamp := fun _ => 1500000000;
     known_revision := fun _ => known;
     dirty_buck_version := fun _ => "dirty-1f3a" |}.

Definition example_project : BuckProject :=
  {| buck_version := ["abc123"];
     has_no_buck_check := false;
     buck_out_log_dir := "/tmp/buck-out/log" |}.

Definition example_repo (is_git : bool) (override : option string) : BuckRepo :=
  {| _buck_project := example_project;
     _buck_dir := "/opt/buck";
     _build_success_file := "/opt/buck/build/successful-build";
     _is_git := is_git;
     _is_buck_repo_dirty_override := override |}.

(** A checkout at another revision, built. *)
Definition built_checkout : Sys :=
  {| head := "0ld999"; files := {[ "/opt/buck/build/successful-build" := "" ]} |}.

(** A checkout at the required revision, not built. *)
Definition unbuilt_checkout : Sys :=
  {| head := "abc123"; files := ∅ |}.

(** A machine without git: no [.git] directory is seen and only ant is on
    the path. *)
Definition gitless_world : World :=
  {| environ := ∅;
     platform := "linux";
     which := fun prog => if String.eqb prog "ant" then Some "/usr/bin/ant" else None;
     stdout_isatty := false;
     stdin_line := "";
     has_git_dir := fun _ => false;
     platform_dirname := fun _ => "/opt/buck";
     git_cat_file := fun _ _ => 128;
     git_fetch := fun _ _ => 128;
     git_checkout := fun _ y => (128, y);
     git_ls_files_m := fun _ => "";
     git_clean_fd := fun y => (128, y);
     ant_clean := fun y => (0, y);
     ant_build := fun y => (0, y);
     git_revision_timestamp := fun _ => 0;
     known_revision := fun _ => None;
     dirty_buck_version := fun _ => "dirty-1f3a" |}.

(** ** The rest of the module *)

(** More of Python's [str] and of file objects. *)
Module Py.

(** [s.find(sub)] searched from position [i] of the whole string: the index
    of the first occurrence, or -1. *)
Fixpoint find_from (sub s : string) (i : Z) : Z :=
  if String.prefix sub s then i
  else match s with
       | EmptyString => -1
       | String _ r => find_from sub r (i + 1)
       end.

Definition find (sub s : string) : Z := find_from sub s 0.

(** [f.readlines()] on the content of a file: the lines, each with its
    newline, the last one without if the file does not end in one. *)
Fixpoint readlines (content : string) : list string :=
  match content with
  | EmptyString => []
  | String c r =>
      if Ascii.eqb c "010" then String c EmptyString :: readlines r
      else match readlines r with
           | [] => [String c EmptyString]
           | l :: ls => String c l :: ls
           end
  end.

End Py.

(** [max_heap_size_mb] is an [int]; [format] prints it in decimal. *)
Definition get_ant_env (environ : gmap string string) (max_heap_size_mb : Z)
    : gmap string string :=
  let ant_env := environ in
  let ant_opts := default "" (ant_env !! "ANT_OPTS") in
  if Py.find "-Xmx" ant_opts =? -1 then
    let ant_max_heap_arg := "-Xmx" +:+ pretty max_heap_size_mb +:+ "m" in
    let ant_opts := if PyStr.truthy ant_opts then ant_opts +:+ " " else ant_opts in
    let ant_opts := ant_opts +:+ ant_max_heap_arg in
    <["ANT_OPTS" := ant_opts]> ant_env
  else ant_env.

(** The loop of [_get_java_classpath] over the lines read. *)
Definition classpath_entries (lines : list string) : list string :=
  foldl (fun classpath_entries line =>
           let line := PyStr.strip line in
           if PyStr.startswith_char line "#" then classpath_entries
           else (classpath_entries ++ [line])%list)
        [] lines.

Section MoreMethods.

Variable w : World.

(** [pathsep] is [self._pathsep] of the base class.  Opening a missing file
    raises [IOError], which is not among the exceptions modelled: what is
    proved of this method is for a [programs/classpaths] that exists. *)
Definition _get_java_classpath (pathsep : string) (self : BuckRepo) : M string :=
  let classpath_file_path := PosixPath.join (_buck_dir self) ["programs"; "classpaths"] in
  content ← read_file classpath_file_path;
  let classpath_entries := classpath_entries (Py.readlines content) in
  mret (String.concat pathsep (map (_join_buck_dir self) classpath_entries)).

(** [is_dirty] is [buck_version.is_dirty] on the buck directory, asked only
    when the override is not ["1"]. *)
Definition _get_extra_java_args (is_dirty : Sys -> bool) (self : BuckRepo)
    : M (list string) :=
  uid ← _get_buck_version_uid w self;
  timestamp ← _get_git_commit_timestamp w self;
  y ← get_sys;
  let dirty :=
    (PyStr.eqb_opt (_is_buck_repo_dirty_override self) "1" || is_dirty y)%bool in
  mret ["-Dbuck.git_commit=" +:+ uid;
        "-Dbuck.git_commit_timestamp=" +:+ pretty timestamp;
        "-Dbuck.git_dirty=" +:+ (if dirty then "1" else "0")].

End MoreMethods.

(** The object [__init__] builds before it checks anything. *)
Definition constructed (w : World) (buck_bin_dir : string) (buck_project : BuckProject)
    : BuckRepo :=
  let buck_dir := platform_dirname w buck_bin_dir in
  {| _buck_project := buck_project;
     _buck_dir := buck_dir;
     _build_success_file := marker_path_of buck_dir;
     _is_git := detects_git w buck_dir;
     _is_buck_repo_dirty_override := environ w !! "BUCK_REPOSITORY_DIRTY" |}.

(** Whether [__init__] runs the version check. *)
Definition checks_version (w : World) (buck_bin_dir : string) (buck_project : BuckProject)
    : bool :=
  (detects_git w (platform_dirname w buck_bin_dir)
   && negb (has_no_buck_check buck_project)
   && negb (bool_decide (buck_version buck_project = [])))%bool.

Definition is_fetch (e : Event) : bool :=
  match e with
  | Spawn (prog :: sub :: _ :: _) _ =>
      (String.eqb prog "git" && String.eqb sub "fetch")%bool
  | _ => false
  end.

Definition is_spawn (e : Event) : bool :=
  match e with
  | Spawn _ _ => true
  | _ => false
  end.

Definition is_print (e : Event) : bool :=
  match e with
  | Print _ => true
  | _ => false
  end.

(** Whether some character of the string is not whitespace. *)
Fixpoint has_nonspace (s : string) : bool :=
  match s with
  | EmptyString => false
  | String c r => (negb (PyStr.is_space c) || has_nonspace r)%bool
  end.

(** A line that [_get_java_classpath] skips. *)
Definition is_comment_line (line : string) : bool :=
  PyStr.startswith_char (PyStr.strip line) "#".

(** A checkout with a classpaths file of three lines, one a comment. *)
Definition classpaths_checkout : Sys :=
  {| head := "abc123";
     files := {[ "/opt/buck/programs/classpaths" :=
                   "build/classes
  # third-party
third-party/java/guava.jar" ]} |}.

(** ** More example surroundings *)

(** A macOS machine where each step has the exit status given; [ant] is
    what [which('ant')] finds.  A checkout that succeeds moves the head; a
    build that succeeds writes the marker. *)
Definition staged_world (probe fetch checkout clean build : Z) (ant : option string)
    : World :=
  {| environ := ∅;
     platform := "darwin";
     which := fun prog => if String.eqb prog "ant" then ant else Some ("/usr/bin/" +:+ prog);
     stdout_isatty := false;
     stdin_line := "";
     has_git_dir := fun _ => true;
     platform_dirname := fun _ => "/opt/buck";
     git_cat_file := fun _ _ => probe;
     git_fetch := fun _ _ => fetch;
     git_checkout := fun revision y =>
       (checkout, if checkout =? 0 then {| head := revision; files := files y |} else y);
     git_ls_files_m := fun _ => "";
     git_clean_fd := fun y => (0, y);
     ant_clean := fun y => (clean, y);
     ant_build := fun y =>
       (build,
        if build =? 0
        then {| head := head y;
                files := <["/opt/buck/build/successful-build" := ""]> (files y) |}
        else y);
     git_revision_timestamp := fun _ => 1500000000;
     known_revision := fun _ => None;
     dirty_buck_version := fun _ => "dirty-1f3a" |}.

(** The example object with the version check opted out. *)
Definition opted_out_repo : BuckRepo :=
  {| _buck_project :=
       {| buck_version := ["abc123"];
          has_no_buck_check := true;
          buck_out_log_dir := "/tmp/buck-out/log" |};
     _buck_dir := "/opt/buck";
     _build_success_file := "/opt/buck/build/successful-build";
     _is_git := true;
     _is_buck_repo_dirty_override := None |}.

(** A checkout with a fake version in its dot-file. *)
Definition faked_checkout : Sys :=
  {| head := "abc123";
     files := {[ "/opt/buck/.fakebuckversion" := " v7
" ]} |}.

(** ** Proof support *)

Ltac run_m :=
  cbv [mbind mret M_bind M_ret raise try_except emit get_sys put_sys print
    subprocess_check_call subprocess_call check_output os_path_exists os_remove open_w
    read_file probe] in *;
  cbn [sys trace fst snd negb app] in *.

Ltac simp := cbn -[String.eqb PosixPath.join PyStr.strip PyStr.lower PyStr.truthy] in *.

(** One case split on the next condition or oracle answer of a run. *)
Ltac branch :=
  match goal with
  | |- context [if negb ?c then _ else _] => destruct c eqn:?
  | |- context [if ?c then _ else _] => destruct c eqn:?
  | |- context [git_checkout ?w ?r ?y] => destruct (git_checkout w r y) as [? ?] eqn:?
  | |- context [git_clean_fd ?w ?y] => destruct (git_clean_fd w y) as [? ?] eqn:?
  | |- context [ant_clean ?w ?y] => destruct (ant_clean w y) as [? ?] eqn:?
  | |- context [ant_build ?w ?y] => destruct (ant_build w y) as [? ?] eqn:?
  end; simp.

(** ** Strings and paths *)

Section Strings.

Lemma append_cons a s t : String a s +:+ t = String a (s +:+ t).
Proof. reflexivity. Qed.

Lemma append_nil_r s : s +:+ "" = s.
Proof. induction s as [|a s IH]; [done|]. by rewrite append_cons, IH. Qed.

Lemma append_assoc s t u : (s +:+ t) +:+ u = s +:+ t +:+ u.
Proof. induction s as [|a s IH]; [done|]. by rewrite !append_cons, IH. Qed.

Lemma truthy_app a b : PyStr.truthy b = true -> PyStr.truthy (a +:+ b) = true.
Proof. destruct a; [done | reflexivity]. Qed.

(** The last character of a concatenation is that of its second part. *)
Lemma endswith_app a b c :
  PyStr.truthy b = true ->
  PyStr.endswith_char (a +:+ b) c = PyStr.endswith_char b c.
Proof.
  intros Hb. induction a as [|d a IH]; [done|].
  rewrite append_cons. cbn [PyStr.endswith_char].
  pose proof (truthy_app a b Hb) as Hab.
  destruct (a +:+ b); [done | exact IH].
Qed.


(** [split] loses nothing: the components, put back with their
    separators, are the string. *)
Lemma split_slash_all s :
  match PyStr.split "/" s with
  | [] => False
  | c :: cs => s = c +:+ slash_all cs
  end.
Proof.
  induction s as [|d s IH]; cbn; [done|].
  destruct (Ascii.eqb d "/") eqn:Hd.
  - apply Ascii.eqb_eq in Hd. subst d.
    destruct (PyStr.split "/" s) as [|h t]; [done|].
    cbn [slash_all]. rewrite <- IH. reflexivity.
  - destruct (PyStr.split "/" s) as [|h t]; [done|].
    rewrite IH at 1. reflexivity.
Qed.

Lemma plain_no_leading c :
  has_char "/" c = false -> PyStr.startswith_char c "/" = false.
Proof. destruct c; cbn; [done|]. by intros [? ?]%orb_false_elim. Qed.

Lemma plain_no_trailing c :
  has_char "/" c = false -> PyStr.endswith_char c "/" = false.
Proof.
  induction c as [|d c IH]; cbn; [done|].
  intros [Hd Hc]%orb_false_elim. destruct c; [done | by apply IH].
Qed.

(** Once the path is non-empty and does not end in a separator, each
    further plain component is appended behind a separator. *)
Lemma foldl_join2_open acc cs :
  PyStr.truthy acc = true ->
  PyStr.endswith_char acc "/" = false ->
  Forall (fun c => plain_component c = true) cs ->
  foldl PosixPath.join2 acc cs = acc +:+ slash_all cs.
Proof.
  intros Hacc Hend Hcs. revert acc Hacc Hend.
  induction Hcs as [|c cs Hc _ IH]; intros acc Hacc Hend; cbn [foldl slash_all].
  - by rewrite append_nil_r.
  - apply andb_true_iff in Hc as [Hne Hns]. apply negb_true_iff in Hns.
    unfold PosixPath.join2 at 2.
    rewrite (plain_no_leading _ Hns), Hacc, Hend. cbn [negb orb].
    rewrite IH.
    + by rewrite !append_assoc.
    + apply truthy_app. by destruct c.
    + rewrite endswith_app.
      * rewrite endswith_app by done. by apply plain_no_trailing.
      * by destruct c.
Qed.

Lemma join2_app root c rest :
  PyStr.truthy c = true ->
  PyStr.startswith_char c "/" = false ->
  PosixPath.join2 root c +:+ rest = PosixPath.join2 root (c +:+ rest).
Proof.
  intros Hne Hlead. unfold PosixPath.join2. rewrite Hlead.
  assert (PyStr.startswith_char (c +:+ rest) "/" = false) as ->.
  { destruct c as [|d c]; [done | exact Hlead]. }
  destruct (negb (PyStr.truthy root) || PyStr.endswith_char root "/")%bool;
    by rewrite ?append_assoc.
Qed.

(** Joining the components of a relative path one by one is joining the
    relative path in one step. *)
Lemma join_split root rel :
  forallb plain_component (PyStr.split "/" rel) = true ->
  PosixPath.join root (PyStr.split "/" rel) = PosixPath.join2 root rel.
Proof.
  intros Hall. pose proof (split_slash_all rel) as Hrel.
  destruct (PyStr.split "/" rel) as [|c cs]; [done|].
  cbn in Hall. apply andb_true_iff in Hall as [Hc Hcs].
  assert (Forall (fun c => plain_component c = true) cs) as Hcs'.
  { clear -Hcs. induction cs as [|x cs IH]; [by constructor|].
    cbn in Hcs. apply andb_true_iff in Hcs as [? ?]. constructor; auto. }
  pose proof Hc as Hc'. apply andb_true_iff in Hc' as [Hne Hns].
  apply negb_true_iff in Hns.
  unfold PosixPath.join. cbn [foldl].
  rewrite foldl_join2_open.
  - rewrite Hrel. apply join2_app; [done | by apply plain_no_leading].
  - unfold PosixPath.join2. rewrite (plain_no_leading _ Hns).
    destruct (negb _ || _)%bool; repeat apply truthy_app; done.
  - unfold PosixPath.join2. rewrite (plain_no_leading _ Hns).
    destruct (negb _ || _)%bool; rewrite !endswith_app; try done;
      by apply plain_no_trailing.
  - exact Hcs'.
Qed.

(** Every relative path of the registry is made of plain components. *)
Lemma registry_paths_plain name rel :
  RESOURCES !! name = Some rel ->
  forallb plain_component (PyStr.split "/" rel) = true.
Proof.
  unfold RESOURCES. intros H%elem_of_list_to_map_2.
  repeat (apply elem_of_cons in H as [H|H]; [by simplify_eq|]).
  by apply elem_of_nil in H.
Qed.

Lemma log_paths_differ self : clean_log_path self <> ant_log_path self.
Proof.
  unfold clean_log_path, ant_log_path, PosixPath.join, PosixPath.join2. cbn.
  destruct (_ || _)%bool; intros H.
  - by apply (inj _) in H.
  - apply (inj _) in H. by apply (inj _) in H.
Qed.

(** A log ends in [g], the marker in [d]. *)
Lemma clean_log_not_marker self :
  _build_success_file self = marker_path_of (_buck_dir self) ->
  clean_log_path self <> _build_success_file self.
Proof.
  intros -> H.
  assert (PyStr.endswith_char (clean_log_path self) "g" = true) as Hg.
  { unfold clean_log_path, PosixPath.join, PosixPath.join2. cbn.
    destruct (_ || _)%bool; by rewrite !endswith_app. }
  assert (PyStr.endswith_char (marker_path_of (_buck_dir self)) "g" = false) as Hd.
  { unfold marker_path_of, PosixPath.join, PosixPath.join2. cbn.
    repeat destruct (_ || _)%bool; by rewrite !endswith_app. }
  congruence.
Qed.

End Strings.

(** ** The state the methods leave *)

Section Marker.

Lemma drop_marker_absent self y : marker_present self (drop_marker self y) = false.
Proof.
  unfold marker_present, drop_marker. cbn. rewrite lookup_delete_eq.
  apply bool_decide_eq_false. by intros [? ?].
Qed.

(** Removing a marker that is not there changes nothing. *)
Lemma drop_marker_id self y : marker_present self y = false -> drop_marker self y = y.
Proof.
  unfold marker_present, drop_marker. intros H%bool_decide_eq_false.
  destruct y as [h f]. cbn in *. f_equal. apply delete_id.
  destruct (f !! _build_success_file self) eqn:E; [|done]. exfalso. apply H. eauto.
Qed.

Lemma with_log_keeps_marker_absent self path y :
  path <> _build_success_file self ->
  marker_present self y = false ->
  marker_present self (with_log path y) = false.
Proof.
  unfold marker_present, with_log. intros Hne H. cbn.
  by rewrite lookup_insert_ne.
Qed.

End Marker.

(** ** The checkout-and-clean state machine *)

(** C1 (as amended).  When the checkout of the required revision succeeds,
    the marker is gone right after it: it is absent from the state in which
    ant is looked up and, for a marker path as the constructor computes it,
    from the state [ant clean] starts in.  What is raised then depends on the
    clean step: without ant on the path it is [BuckToolException] and nothing
    else changes; with ant, [RestartBuck] is raised exactly when [ant clean]
    exits with 0, and the exception of the ant failure path otherwise. *)
Theorem checkout_outcome w self revision branch y :
  revision_available w revision branch y = true ->
  current_revision self y <> revision ->
  fst (git_checkout w revision y) = 0 ->
  let y1 := drop_marker self (snd (git_checkout w revision y)) in
  let y2 := with_log (clean_log_path self) y1 in
  let r := _checkout_and_clean w self revision branch (fresh y) in
  marker_present self y1 = false /\
  (_build_success_file self = marker_path_of (_buck_dir self) ->
     marker_present self y2 = false) /\
  (ant_found w = false ->
     fst r = Raise (BuckToolException (NoAnt (String.eqb (platform w) "darwin")))
     /\ sys (snd r) = y1) /\
  (ant_found w = true ->
     sys (snd r) = snd (ant_clean w y2)
     /\ fst r = if fst (ant_clean w y2) =? 0
                then Raise RestartBuck
                else Raise (ant_remedy self)).
Proof.
  intros Hav Hne Hco y1 y2 r.
  split; [apply drop_marker_absent|].
  split.
  { intros Hwf. apply with_log_keeps_marker_absent.
    - by apply clean_log_not_marker.
    - apply drop_marker_absent. }
  assert (String.eqb (current_revision self y) revision = false) as Hneb
    by (by apply String.eqb_neq).
  subst r y2 y1.
  unfold _checkout_and_clean, _revision_exists, _get_git_revision, _check_for_ant,
    _run_ant_clean, _print_ant_failure_and_exit, revision_available, fetch_args,
    current_revision, ant_found, ant_remedy, fresh in *.
  fold (clean_log_path self).
  run_m.
  destruct (git_checkout w revision y) as [code y'] eqn:Eco. cbn in Hco. subst code.
  destruct (git_cat_file w revision y =? 0) eqn:Ecat; simp; rewrite ?Hav; simp.
  all: destruct (_is_git self); simp; rewrite Hneb; simp; rewrite Eco; simp.
  all: destruct (bool_decide _) eqn:Em; simp.
  all: rewrite ?(drop_marker_id self y' Em).
  all: split; intros Hant; rewrite Hant; simp; [done|].
  all: fold (drop_marker self y');
       fold (with_log (clean_log_path self) (drop_marker self y'));
       fold (with_log (clean_log_path self) y').
  all: destruct (ant_clean w _) as [ec y3]; simp; destruct (ec =? 0); simp; done.
Qed.

(** C2 (as amended).  [_checkout_and_clean] never runs the build step: no
    run opens [ant.log] or starts ant without a target.  When it ends in
    [RestartBuck], ant was found and the last things done were opening
    [ant-clean.log] and running [ant clean]. *)
Theorem checkout_runs_clean_only w self revision branch y :
  let r := _checkout_and_clean w self revision branch (fresh y) in
  Forall (fun e => is_build_step self e = false) (trace (snd r)) /\
  (fst r = Raise RestartBuck ->
     exists ant pre, which w "ant" = Some ant /\
       trace (snd r) =
         (pre ++ [OpenWrite (clean_log_path self);
                  Spawn [ant; "clean"] (_buck_dir self)])%list).
Proof.
  intros r. subst r.
  pose proof (log_paths_differ self) as Hlog. apply String.eqb_neq in Hlog.
  unfold _checkout_and_clean, _revision_exists, _get_git_revision, _check_for_ant,
    _run_ant_clean, _print_ant_failure_and_exit, fresh.
  fold (clean_log_path self).
  run_m.
  destruct (which w "ant") as [[|c a]|] eqn:Eant; simp.
  all: repeat branch.
  all: split; [repeat constructor; simp; first [done | exact Hlog] | try done].
  all: intros _; eexists _, _; split; [reflexivity|].
  all: match goal with
       | |- ?t = (?p ++ _)%list => unify p (take (length t - 2) t)
       end; reflexivity.
Qed.

(** C7.  When the current revision already is the required one,
    [_checkout_and_clean] leaves the checkout and the files as they were,
    performs no checkout, removes nothing and runs nothing of the build, and
    does not raise [RestartBuck]: it returns, or the fetch it tried after a
    failed probe fails. *)
Theorem matching_revision_no_mutation w self revision branch y :
  current_revision self y = revision ->
  let r := _checkout_and_clean w self revision branch (fresh y) in
  sys (snd r) = y /\
  fst r <> Raise RestartBuck /\
  (fst r = Return () \/ fst r = Raise (BuckToolException FetchFailed)) /\
  Forall (fun e => is_checkout e = false /\ is_remove e = false /\ is_ant e = false)
    (trace (snd r)).
Proof.
  intros Hcur r. subst r.
  unfold _checkout_and_clean, _revision_exists, _get_git_revision, current_revision,
    fresh in *.
  run_m.
  destruct (git_cat_file w revision y =? 0); simp.
  - destruct (_is_git self); simp; subst; rewrite ?String.eqb_refl; simp.
    all: split; [done|]; split; [done|]; split; [by left|]; repeat constructor.
  - destruct (git_fetch _ _ _ =? 0); simp.
    + destruct (_is_git self); simp; subst; rewrite ?String.eqb_refl; simp.
      all: split; [done|]; split; [done|]; split; [by left|]; repeat constructor.
      all: destruct (PyStr.truthy_opt branch); reflexivity.
    + split; [done|]; split; [done|]; split; [by right|]; repeat constructor.
      all: destruct (PyStr.truthy_opt branch); reflexivity.
Qed.

(** ** The build step *)

(** C3 (as amended).  With the marker present [_build] does nothing but
    look for it.  With the marker absent, a [_build] that returns has opened
    the two logs and run [ant clean] and [ant], and has written nothing
    else: the files it leaves are those the [ant] subprocess left, so the
    marker is there afterwards only if that subprocess created it. *)
Theorem build_outcome w self y :
  let r := _build w self (fresh y) in
  (marker_present self y = true ->
     r = (Return (), {| sys := y; trace := [PathExists (_build_success_file self)] |})) /\
  (marker_present self y = false -> fst r = Return () ->
     sys (snd r) =
       snd (ant_build w (with_log (ant_log_path self)
              (snd (ant_clean w (with_log (clean_log_path self) y)))))
     /\ trace (snd r) =
          [PathExists (_build_success_file self); Print NotBuilt;
           OpenWrite (clean_log_path self);
           Spawn [default "" (which w "ant"); "clean"] (_buck_dir self);
           OpenWrite (ant_log_path self);
           Spawn [default "" (which w "ant")] (_buck_dir self);
           Print AllDone]).
Proof.
  intros r. subst r.
  unfold _build, _check_for_ant, _run_ant_clean, _run_ant, _print_ant_failure_and_exit,
    marker_present, with_log, fresh.
  fold (clean_log_path self). fold (ant_log_path self).
  run_m.
  split; intros Hm; rewrite Hm; simp; [done|].
  destruct (which w "ant") as [[|c a]|] eqn:Eant; simp; try done.
  repeat branch; try done.
  all: match goal with H : ant_build _ _ = _ |- _ => rewrite ?H end; simp; try done.
Qed.

(** ** The version-control queries *)

(** C4 (as amended).  For a repository that is not version-controlled the
    current revision is ["N/A"], there are no local changes and the commit
    timestamp is [-1], each answered without running anything.  The revision
    probe has no such guard; it is reached only through
    [_checkout_and_clean], which the constructor skips when it does not
    detect git, so that constructing the object then runs no git command. *)
Theorem non_git_queries w self s :
  _is_git self = false ->
  _get_git_revision self s = (Return "N/A", s) /\
  _has_local_changes w self s = (Return false, s) /\
  _get_git_commit_timestamp w self s = (Return (-1), s) /\
  (forall bin project y,
     detects_git w (platform_dirname w bin) = false ->
     Forall (fun e => is_git_call e = false)
       (trace (snd (__init__ w bin project (fresh y))))).
Proof.
  intros Hgit.
  unfold _get_git_revision, _has_local_changes, _get_git_commit_timestamp.
  rewrite Hgit, orb_true_r. cbn. repeat split.
  intros bin project y Hdet. unfold detects_git in Hdet.
  unfold __init__, _build, _check_for_ant, _run_ant_clean, _run_ant,
    _print_ant_failure_and_exit, fresh.
  cbn [_is_git _buck_dir _build_success_file _buck_project]. rewrite Hdet.
  run_m. cbn [andb].
  destruct (which w "ant") as [[|c a]|] eqn:Eant; simp.
  all: repeat branch.
  all: repeat constructor.
Qed.

(** C5 (as amended).  The commit timestamp is [-1], with nothing asked of
    git, when [BUCK_REPOSITORY_DIRTY] is set to any non-empty string (["0"] as
    well as ["1"]) or the repository is not version-controlled; in every
    other state it is the timestamp [buck_version] reports for the current
    revision. *)
Theorem commit_timestamp_sentinel w self y :
  let r := _get_git_commit_timestamp w self (fresh y) in
  ((exists v, _is_buck_repo_dirty_override self = Some v /\ v <> "")
     \/ _is_git self = false ->
   r = (Return (-1), fresh y)) /\
  (~ ((exists v, _is_buck_repo_dirty_override self = Some v /\ v <> "")
        \/ _is_git self = false) ->
   r = (Return (git_revision_timestamp w y),
        {| sys := y; trace := [Query GetGitRevisionTimestamp] |})).
Proof.
  intros r. subst r. unfold _get_git_commit_timestamp, fresh. run_m.
  split.
  - intros [(v & -> & Hv) | ->].
    + destruct v; [done|]. reflexivity.
    + by rewrite orb_true_r.
  - intros Hn.
    destruct (_is_buck_repo_dirty_override self) as [[|c v]|]; cbn.
    2: { exfalso. apply Hn. left. by eexists. }
    all: destruct (_is_git self); cbn; [done|].
    all: exfalso; apply Hn; by right.
Qed.

(** ** Version identity *)

(** C6.  A non-empty [BUCK_FAKE_VERSION] is the version identity, whatever
    the checkout matches: the only thing done is printing the warning, so
    neither the dot-file nor the clean or dirty version is looked at. *)
Theorem fake_version_env_wins w self y v :
  environ w !! "BUCK_FAKE_VERSION" = Some v ->
  v <> "" ->
  _get_buck_version_uid w self (fresh y) =
    (Return v, {| sys := y; trace := [Print (FakingVersion v)] |}).
Proof.
  intros Henv Hv. unfold _get_buck_version_uid, fresh. rewrite Henv.
  destruct v as [|c v]; [done|]. reflexivity.
Qed.

(** C8.  With no override (no fake version from the environment or the
    dot-file, no dirty override), a version requirement and no opt-out, local
    modifications and no terminal, the identity is the dirty one; nothing is
    changed, the cleanup question is not asked and no answer is read, and so
    [RestartBuck] is not raised. *)
Theorem local_modifications_dirty w self y :
  no_fake_override w self y = true ->
  PyStr.eqb_opt (_is_buck_repo_dirty_override self) "1" = false ->
  has_no_buck_check (_buck_project self) = false ->
  buck_version (_buck_project self) <> [] ->
  _is_git self = true ->
  tree_modified w y = true ->
  stdout_isatty w = false ->
  let r := _get_buck_version_uid w self (fresh y) in
  fst r = Return (dirty_buck_version w y) /\
  fst r <> Raise RestartBuck /\
  sys (snd r) = y /\
  Forall (fun e => is_prompt e = false) (trace (snd r)).
Proof.
  intros Hfake Hov Hchk Hver Hgit Hmod Htty r. subst r.
  apply andb_true_iff in Hfake as [Henv Hfile].
  apply negb_true_iff in Henv, Hfile.
  unfold _get_buck_version_uid, _has_local_changes, get_clean_buck_version,
    fake_file_version, tree_modified, fresh in *.
  fold (fake_version_file_path self) in *.
  rewrite Henv, Hov, Hchk, Hgit. rewrite (bool_decide_eq_false_2 _ Hver).
  run_m.
  destruct (files y !! fake_version_file_path self) as [content|] eqn:Efile; simp.
  all: rewrite ?Efile; simp.
  all: rewrite ?Hfile, ?Henv; simp.
  all: rewrite Hmod; simp.
  all: destruct (known_revision w y); simp.
  all: rewrite ?Hmod; simp.
  all: repeat split; try done; repeat constructor.
Qed.

(** C10.  Once the cleanup question is asked, [git clean -fd] runs and
    [RestartBuck] is raised exactly when the answer, lowercased, is ["y"];
    with any other answer the identity is the dirty one, the checkout and the
    files are untouched and no [git clean] is run. *)
Theorem cleanup_prompt_answer w self y :
  no_fake_override w self y = true ->
  get_clean_buck_version w y (PyStr.eqb_opt (_is_buck_repo_dirty_override self) "1")
    = None ->
  has_no_buck_check (_buck_project self) = false ->
  buck_version (_buck_project self) <> [] ->
  (_is_git self && tree_modified w y)%bool = false ->
  PyStr.eqb_opt (environ w !! "BUCK_CLEAN_REPO_IF_DIRTY") "NO" = false ->
  stdout_isatty w = true ->
  let r := _get_buck_version_uid w self (fresh y) in
  (PyStr.lower (stdin_line w) = "y" ->
     fst r = Raise RestartBuck /\
     sys (snd r) = snd (git_clean_fd w y) /\
     Exists (fun e => is_git_clean e = true) (trace (snd r))) /\
  (PyStr.lower (stdin_line w) <> "y" ->
     fst r = Return (dirty_buck_version w y) /\
     sys (snd r) = y /\
     Forall (fun e => is_git_clean e = false) (trace (snd r))).
Proof.
  intros Hfake Hclean Hchk Hver Hmod Hno Htty r. subst r.
  apply andb_true_iff in Hfake as [Henv Hfile].
  apply negb_true_iff in Henv, Hfile.
  unfold _get_buck_version_uid, _has_local_changes, fake_file_version, tree_modified,
    fresh in *.
  fold (fake_version_file_path self) in *.
  rewrite Henv, Hchk, Hno, Htty. rewrite (bool_decide_eq_false_2 _ Hver).
  run_m.
  destruct (files y !! fake_version_file_path self) as [content|] eqn:Efile; simp.
  all: rewrite ?Efile; simp.
  all: rewrite ?Hfile, ?Henv; simp.
  all: rewrite Hclean; simp.
  all: destruct (_is_git self); simp.
  all: rewrite ?Hmod; simp.
  all: split; [intros Hy; rewrite Hy, String.eqb_refl
              | intros Hy; apply String.eqb_neq in Hy; rewrite Hy].
  all: destruct (git_clean_fd w y) as [code y'] eqn:Egc; simp; rewrite ?Egc; simp.
  all: repeat split.
  all: try (repeat constructor; fail).
  all: repeat (first [ apply Exists_cons_hd; reflexivity | apply Exists_cons_tl ]).
Qed.

(** ** The resource locator *)

(** C9.  A name outside the registry raises [KeyError] with that name; a
    name of the registry gives the buck directory joined with the relative
    path registered for it.  Either way the state is the one the call
    started in: no file is looked at and nothing is recorded. *)
Theorem locate_resource self name s :
  _get_resource self name s =
    (match RESOURCES !! name with
     | Some rel => Return (PosixPath.join2 (_buck_dir self) rel)
     | None => Raise (KeyError name)
     end, s).
Proof.
  unfold _get_resource, _join_buck_dir.
  destruct (RESOURCES !! name) as [rel|] eqn:E; [|done].
  cbv [mret M_ret]. by rewrite join_split by by eapply registry_paths_plain.
Qed.

(** ** The theorems at work, and where the specification goes wrong *)

(** C1, concrete: everything succeeds, so the checkout ends in
    [RestartBuck]. *)
Lemma checkout_outcome_witness :
  let w := example_world ∅ false "" 0 "" None in
  let self := example_repo true None in
  fst (_checkout_and_clean w self "abc123" None (fresh built_checkout))
    = Raise RestartBuck.
Proof.
  intros w self.
  destruct (checkout_outcome w self "abc123" None built_checkout) as (_ & _ & _ & H).
  - reflexivity.
  - intros E. vm_compute in E. discriminate.
  - reflexivity.
  - destruct (H eq_refl) as [_ ->]. reflexivity.
Defined.

(** C1 as stated fails: the checkout succeeds, [ant clean] exits with 1,
    and what is raised is [BuckToolException], not [RestartBuck]. *)
Lemma checkout_then_failed_clean :
  let w := example_world ∅ false "" 1 "" None in
  let self := example_repo true None in
  let r := _checkout_and_clean w self "abc123" None (fresh built_checkout) in
  current_revision self built_checkout <> "abc123" /\
  fst (git_checkout w "abc123" built_checkout) = 0 /\
  fst r = Raise (BuckToolException (RemedyGitClean "/opt/buck")) /\
  fst r <> Raise RestartBuck.
Proof.
  vm_compute. repeat split; intros E; discriminate.
Qed.

(** C2, concrete: the restart comes right after [ant clean]. *)
Lemma checkout_runs_clean_only_witness :
  let w := example_world ∅ false "" 0 "" None in
  let self := example_repo true None in
  let r := _checkout_and_clean w self "abc123" None (fresh built_checkout) in
  exists ant pre, which w "ant" = Some ant /\
    trace (snd r) =
      (pre ++ [OpenWrite (clean_log_path self);
               Spawn [ant; "clean"] (_buck_dir self)])%list.
Proof.
  intros w self r.
  destruct (checkout_runs_clean_only w self "abc123" None built_checkout) as [_ H].
  apply H. reflexivity.
Defined.

(** C2 as stated fails: on a checkout where every step succeeds the restart
    is signalled after these eight events; [ant.log] is never opened and ant
    is never run to build. *)
Lemma checkout_restarts_without_build :
  let w := example_world ∅ false "" 0 "" None in
  let self := example_repo true None in
  let r := _checkout_and_clean w self "abc123" None (fresh built_checkout) in
  fst r = Raise RestartBuck /\
  trace (snd r) =
    [Spawn ["git"; "cat-file"; "-e"; "abc123"] "/opt/buck";
     Query GetGitRevision;
     Print (UpdatingItself "0ld999" "abc123");
     Spawn ["git"; "checkout"; "--quiet"; "abc123"] "/opt/buck";
     PathExists "/opt/buck/build/successful-build";
     Remove "/opt/buck/build/successful-build";
     OpenWrite "/tmp/buck-out/log/ant-clean.log";
     Spawn ["/usr/bin/ant"; "clean"] "/opt/buck"].
Proof.
  split; reflexivity.
Qed.

(** C3, concrete: a build that returns has done exactly the seven things. *)
Lemma build_outcome_witness :
  let w := example_world ∅ false "" 0 "" None in
  let self := example_repo true None in
  trace (snd (_build w self (fresh unbuilt_checkout))) =
    [PathExists "/opt/buck/build/successful-build"; Print NotBuilt;
     OpenWrite "/tmp/buck-out/log/ant-clean.log";
     Spawn ["/usr/bin/ant"; "clean"] "/opt/buck";
     OpenWrite "/tmp/buck-out/log/ant.log";
     Spawn ["/usr/bin/ant"] "/opt/buck";
     Print AllDone].
Proof.
  intros w self.
  destruct (build_outcome w self unbuilt_checkout) as [_ H].
  destruct H as [_ ->]; reflexivity.
Defined.

(** C3 as stated fails: both ant runs exit with 0 without writing the
    marker; [_build] returns and the marker is still absent. *)
Lemma build_returns_without_marker :
  let w := example_world ∅ false "" 0 "" None in
  let self := example_repo true None in
  let r := _build w self (fresh unbuilt_checkout) in
  marker_present self unbuilt_checkout = false /\
  fst r = Return () /\
  marker_present self (sys (snd r)) = false.
Proof.
  vm_compute. repeat split.
Qed.

(** C4, concrete: constructing the object on a machine without git runs no
    git command. *)
Lemma non_git_queries_witness :
  let self := example_repo false None in
  _get_git_revision self (fresh unbuilt_checkout) = (Return "N/A", fresh unbuilt_checkout) /\
  Forall (fun e => is_git_call e = false)
    (trace (snd (__init__ gitless_world "/opt/buck/bin" example_project
                   (fresh unbuilt_checkout)))).
Proof.
  intros self.
  destruct (non_git_queries gitless_world self (fresh unbuilt_checkout) eq_refl)
    as (H1 & _ & _ & H4).
  split; [exact H1 | apply H4; reflexivity].
Defined.

(** C4 as stated fails for the revision probe: on an object that is not
    version-controlled it still runs [git cat-file -e]. *)
Lemma revision_probe_runs_git :
  let w := example_world ∅ false "" 0 "" None in
  let self := example_repo false None in
  _is_git self = false /\
  _revision_exists w self "abc123" (fresh unbuilt_checkout) =
    (Return true,
     {| sys := unbuilt_checkout;
        trace := [Spawn ["git"; "cat-file"; "-e"; "abc123"] "/opt/buck"] |}).
Proof.
  split; reflexivity.
Qed.

(** C5, concrete: the override set to ["0"] gives [-1] without asking git. *)
Lemma commit_timestamp_sentinel_witness :
  let w := example_world ∅ false "" 0 "" None in
  let self := example_repo true (Some "0") in
  _get_git_commit_timestamp w self (fresh unbuilt_checkout)
    = (Return (-1), fresh unbuilt_checkout).
Proof.
  intros w self.
  destruct (commit_timestamp_sentinel w self unbuilt_checkout) as [H _].
  apply H. left. exists "0". split; [reflexivity | discriminate].
Defined.

(** C5 as stated fails: the flag is ["0"], not ["1"], the repository is
    version-controlled, and the timestamp is [-1] all the same. *)
Lemma commit_timestamp_override_zero :
  let w := example_world ∅ false "" 0 "" None in
  let self := example_repo true (Some "0") in
  _is_buck_repo_dirty_override self <> Some "1" /\
  _is_git self = true /\
  git_revision_timestamp w unbuilt_checkout = 1500000000 /\
  fst (_get_git_commit_timestamp w self (fresh unbuilt_checkout)) = Return (-1).
Proof.
  repeat split. discriminate.
Qed.

(** C6, concrete: ["v123"] wins over a checkout that matches the clean
    revision ["abc123"]. *)
Lemma fake_version_env_wins_witness :
  let w := example_world {[ "BUCK_FAKE_VERSION" := "v123" ]} false "" 0 ""
             (Some "abc123") in
  let self := example_repo true None in
  get_clean_buck_version w unbuilt_checkout false = Some "abc123" /\
  _get_buck_version_uid w self (fresh unbuilt_checkout) =
    (Return "v123", {| sys := unbuilt_checkout; trace := [Print (FakingVersion "v123")] |}).
Proof.
  intros w self. split; [reflexivity|].
  apply (fake_version_env_wins w self unbuilt_checkout "v123");
    [reflexivity | discriminate].
Defined.

(** C7, concrete: the checkout already is at ["abc123"]. *)
Lemma matching_revision_no_mutation_witness :
  let w := example_world ∅ false "" 0 "" None in
  let self := example_repo true None in
  let r := _checkout_and_clean w self "abc123" None (fresh unbuilt_checkout) in
  sys (snd r) = unbuilt_checkout /\
  fst r <> Raise RestartBuck /\
  (fst r = Return () \/ fst r = Raise (BuckToolException FetchFailed)) /\
  Forall (fun e => is_checkout e = false /\ is_remove e = false /\ is_ant e = false)
    (trace (snd r)).
Proof.
  intros w self.
  apply (matching_revision_no_mutation w self "abc123" None unbuilt_checkout).
  reflexivity.
Defined.

(** C8, concrete: one modified file, no terminal. *)
Lemma local_modifications_dirty_witness :
  let w := example_world ∅ false "" 0 "src/Main.java" (Some "abc123") in
  let self := example_repo true None in
  let r := _get_buck_version_uid w self (fresh unbuilt_checkout) in
  fst r = Return "dirty-1f3a" /\
  fst r <> Raise RestartBuck /\
  sys (snd r) = unbuilt_checkout /\
  Forall (fun e => is_prompt e = false) (trace (snd r)).
Proof.
  intros w self.
  apply (local_modifications_dirty w self unbuilt_checkout);
    first [reflexivity | discriminate].
Defined.

(** C10, concrete: the answer ["yes"] is not ["y"], so nothing is cleaned;
    the answer ["Y"] is. *)
Lemma cleanup_prompt_answer_witness :
  let self := example_repo true None in
  fst (_get_buck_version_uid (example_world ∅ true "yes" 0 "" None) self
         (fresh unbuilt_checkout)) = Return "dirty-1f3a" /\
  fst (_get_buck_version_uid (example_world ∅ true "Y" 0 "" None) self
         (fresh unbuilt_checkout)) = Raise RestartBuck.
Proof.
  intros self. split.
  - pose proof (cleanup_prompt_answer (example_world ∅ true "yes" 0 "" None) self
                  unbuilt_checkout eq_refl eq_refl eq_refl ltac:(discriminate)
                  eq_refl eq_refl eq_refl) as [_ H].
    destruct H as [H _]; [discriminate | exact H].
  - pose proof (cleanup_prompt_answer (example_world ∅ true "Y" 0 "" None) self
                  unbuilt_checkout eq_refl eq_refl eq_refl ltac:(discriminate)
                  eq_refl eq_refl eq_refl) as [H _].
    destruct H as [H _]; [reflexivity | exact H].
Defined.

(** ** Small checks of the string model *)

Example split_demo : PyStr.split "/" "bin/buck" = ["bin"; "buck"].
Proof. reflexivity. Qed.

Example join_demo :
  PosixPath.join "/opt/buck" ["bin"; "buck"] = "/opt/buck/bin/buck".
Proof. reflexivity. Qed.

Example lookup_demo : RESOURCES !! "dx" = Some "third-party/java/dx/etc/dx".
Proof. vm_compute. reflexivity. Qed.

Example lower_demo : PyStr.lower "YeS" = "yes".
Proof. reflexivity. Qed.

Example locate_demo :
  _get_resource (example_repo true None) "buck_server" (fresh unbuilt_checkout)
    = (Return "/opt/buck/bin/buck", fresh unbuilt_checkout).
Proof. reflexivity. Qed.

(** ** The environment handed to ant *)

Lemma prefix_app sub b : String.prefix sub (sub +:+ b) = true.
Proof.
  induction sub as [|c sub IH]; [by destruct b|].
  rewrite append_cons. cbn. by destruct (ascii_dec c c).
Qed.

Lemma find_from_unfold sub s i :
  Py.find_from sub s i =
    if String.prefix sub s then i
    else match s with
         | EmptyString => -1
         | String _ r => Py.find_from sub r (i + 1)
         end.
Proof. by destruct s. Qed.

(** A string that holds [sub] somewhere is one [find] does not miss. *)
Lemma find_from_app sub a b i :
  0 <= i -> Py.find_from sub (a +:+ sub +:+ b) i <> -1.
Proof.
  revert i. induction a as [|c a IH]; intros i Hi; rewrite find_from_unfold.
  - change ("" +:+ sub +:+ b) with (sub +:+ b). rewrite prefix_app. lia.
  - destruct (String.prefix _ _); [lia|]. rewrite append_cons. apply IH. lia.
Qed.

(** X1.  Whatever the environment, the one handed to ant has a maximum heap
    size in [ANT_OPTS], and every other variable is as the caller had it. *)
Theorem get_ant_env_heap_always_set env n :
  Py.find "-Xmx" (default "" (get_ant_env env n !! "ANT_OPTS")) <> -1 /\
  (forall k, k <> "ANT_OPTS" -> get_ant_env env n !! k = env !! k).
Proof.
  unfold get_ant_env.
  destruct (Py.find "-Xmx" (default "" (env !! "ANT_OPTS")) =? -1) eqn:E.
  - split.
    + rewrite lookup_insert_eq. cbn [default from_option]. apply find_from_app. lia.
    + intros k Hk. by rewrite lookup_insert_ne.
  - split; [by apply Z.eqb_neq | done].
Qed.

(** X2.  A caller's [ANT_OPTS] that names a maximum heap size is left
    alone, and with it the whole environment; in every case the caller's
    options are kept, the flag coming behind them. *)
Theorem get_ant_env_keeps_caller_options env n :
  (Py.find "-Xmx" (default "" (env !! "ANT_OPTS")) <> -1 -> get_ant_env env n = env) /\
  (exists added,
     default "" (get_ant_env env n !! "ANT_OPTS")
       = default "" (env !! "ANT_OPTS") +:+ added).
Proof.
  unfold get_ant_env.
  destruct (Py.find "-Xmx" (default "" (env !! "ANT_OPTS")) =? -1) eqn:E.
  - split; [by apply Z.eqb_eq in E|].
    rewrite lookup_insert_eq. cbn [default from_option].
    destruct (PyStr.truthy _); eexists; [by rewrite append_assoc | reflexivity].
  - split; [done|]. exists "". by rewrite append_nil_r.
Qed.

(** X3.  Passing the result through [get_ant_env] again, with whatever heap
    size, changes nothing. *)
Theorem get_ant_env_idempotent env n m :
  get_ant_env (get_ant_env env n) m = get_ant_env env n.
Proof.
  assert (Py.find "-Xmx" (default "" (get_ant_env env n !! "ANT_OPTS")) <> -1) as H.
  { unfold get_ant_env.
    destruct (Py.find "-Xmx" (default "" (env !! "ANT_OPTS")) =? -1) eqn:E.
    - rewrite lookup_insert_eq. cbn [default from_option]. apply find_from_app. lia.
    - by apply Z.eqb_neq. }
  apply Z.eqb_neq in H. unfold get_ant_env at 1. by rewrite H.
Qed.

(** ** More on the checkout-and-clean state machine *)

(** X4.  When the revision is not in the local store and the fetch fails,
    [BuckToolException] is raised at once: the revision is not compared,
    nothing is checked out and the state is as before. *)
Theorem fetch_failure_is_fatal w self revision branch y :
  git_cat_file w revision y <> 0 ->
  git_fetch w (fetch_args branch) y <> 0 ->
  _checkout_and_clean w self revision branch (fresh y) =
    (Raise (BuckToolException FetchFailed),
     {| sys := y;
        trace := [Spawn ["git"; "cat-file"; "-e"; revision] (_buck_dir self);
                  Print (RevisionNotAvailable revision);
                  Spawn ("git" :: "fetch" :: fetch_args branch) (_buck_dir self)] |}).
Proof.
  intros Hcat%Z.eqb_neq Hfetch%Z.eqb_neq.
  unfold _checkout_and_clean, _revision_exists, fetch_args, fresh in *.
  run_m. rewrite Hcat. simp. by rewrite Hfetch.
Qed.

(** X5.  When the checkout itself fails, [BuckToolException] names the
    revision; the module removes no marker and runs no ant: the state is the
    one the failed [git checkout] left. *)
Theorem checkout_failure_keeps_marker w self revision branch y :
  revision_available w revision branch y = true ->
  current_revision self y <> revision ->
  fst (git_checkout w revision y) <> 0 ->
  let r := _checkout_and_clean w self revision branch (fresh y) in
  fst r = Raise (BuckToolException (UpdateFailed revision)) /\
  sys (snd r) = snd (git_checkout w revision y) /\
  Forall (fun e => is_remove e = false /\ is_ant e = false) (trace (snd r)).
Proof.
  intros Hav Hne Hco r. subst r.
  assert (String.eqb (current_revision self y) revision = false) as Hneb
    by (by apply String.eqb_neq).
  unfold _checkout_and_clean, _revision_exists, _get_git_revision, revision_available,
    fetch_args, current_revision, fresh in *.
  run_m.
  destruct (git_checkout w revision y) as [code y'] eqn:Eco. cbn in Hco.
  apply Z.eqb_neq in Hco.
  destruct (git_cat_file w revision y =? 0) eqn:Ecat; simp; rewrite ?Hav; simp.
  all: destruct (_is_git self); simp; rewrite Hneb; simp; rewrite Eco; simp.
  all: rewrite Hco; simp.
  all: repeat split; repeat constructor.
  all: destruct (PyStr.truthy_opt branch); reflexivity.
Qed.

(** X6.  The fetch depends on the probe alone.  A revision found in the
    local store is never fetched; a revision not found is fetched before
    anything else, from all remotes when no branch (or an empty one) is
    given and from [origin <branch>] otherwise. *)
Theorem fetch_only_when_revision_missing w self revision branch y :
  let r := _checkout_and_clean w self revision branch (fresh y) in
  (git_cat_file w revision y = 0 ->
     Forall (fun e => is_fetch e = false) (trace (snd r))) /\
  (git_cat_file w revision y <> 0 ->
     take 3 (trace (snd r)) =
       [Spawn ["git"; "cat-file"; "-e"; revision] (_buck_dir self);
        Print (RevisionNotAvailable revision);
        Spawn ("git" :: "fetch" ::
                 match branch with
                 | None | Some "" => ["--all"]
                 | Some b => ["origin"; b]
                 end) (_buck_dir self)]).
Proof.
  intros r. subst r.
  unfold _checkout_and_clean, _revision_exists, _get_git_revision, _check_for_ant,
    _run_ant_clean, _print_ant_failure_and_exit, fresh.
  run_m.
  split.
  - intros ->. simp.
    destruct (which w "ant") as [[|c a]|] eqn:Eant; simp.
    all: repeat branch.
    all: repeat constructor.
  - intros Hcat%Z.eqb_neq. rewrite Hcat. simp.
    destruct branch as [[|c b]|]; cbn [PyStr.truthy_opt PyStr.truthy negb]; simp.
    all: destruct (which w "ant") as [[|c' a]|] eqn:Eant; simp.
    all: repeat branch.
    all: reflexivity.
Qed.

(** X7.  [_checkout_and_clean] returns only when there was nothing to do:
    the current revision is the required one and the state is untouched.  In
    every run that moves the checkout it ends in an exception. *)
Theorem normal_return_means_untouched w self revision branch y :
  let r := _checkout_and_clean w self revision branch (fresh y) in
  fst r = Return () ->
  current_revision self y = revision /\ sys (snd r) = y.
Proof.
  intros r. subst r.
  unfold _checkout_and_clean, _revision_exists, _get_git_revision, _check_for_ant,
    _run_ant_clean, _print_ant_failure_and_exit, current_revision, fresh.
  run_m.
  destruct (which w "ant") as [[|c a]|] eqn:Eant; simp.
  all: repeat branch.
  all: try discriminate.
  all: intros _; split; [by apply String.eqb_eq | reflexivity].
Qed.

(** ** More on the build step *)

(** X8.  A clean step that fails ends the build: the failure is reported
    with the clean log, the exception of the ant failure path is raised, and
    the build step is not attempted. *)
Theorem build_stops_at_failed_clean w self y ant :
  marker_present self y = false ->
  which w "ant" = Some ant -> ant <> "" ->
  fst (ant_clean w (with_log (clean_log_path self) y)) <> 0 ->
  _build w self (fresh y) =
    (Raise (ant_remedy self),
     {| sys := snd (ant_clean w (with_log (clean_log_path self) y));
        trace := [PathExists (_build_success_file self); Print NotBuilt;
                  OpenWrite (clean_log_path self);
                  Spawn [ant; "clean"] (_buck_dir self);
                  Print (AntFailed (_buck_dir self) (clean_log_path self))] |}).
Proof.
  intros Hm Hant Hne Hexit.
  unfold _build, _check_for_ant, _run_ant_clean, _run_ant, _print_ant_failure_and_exit,
    marker_present, with_log, ant_remedy, fresh in *.
  fold (clean_log_path self) in *.
  run_m. rewrite Hm, Hant. simp.
  destruct ant as [|c a]; [done|]. cbn [PyStr.truthy negb]. simp.
  destruct (ant_clean w _) as [code y'] eqn:E. simp. rewrite ?E. simp.
  apply Z.eqb_neq in Hexit. rewrite Hexit. simp.
  by destruct (_is_git self).
Qed.

(** X9.  Without ant on the path the build stops before it opens a log or
    starts anything; the install hint is given on macOS only. *)
Theorem build_needs_ant w self y :
  marker_present self y = false ->
  ant_found w = false ->
  _build w self (fresh y) =
    (Raise (BuckToolException (NoAnt (String.eqb (platform w) "darwin"))),
     {| sys := y; trace := [PathExists (_build_success_file self); Print NotBuilt] |}).
Proof.
  intros Hm Hant.
  unfold _build, _check_for_ant, marker_present, ant_found, fresh in *.
  run_m. rewrite Hm. simp. by rewrite Hant.
Qed.

(** X10.  When the clean step succeeds and the build step fails, the
    failure is reported with the build log, after both logs were opened and
    both ant runs made; the remedy suggested is [git clean] for a
    version-controlled checkout and removing the build directory
    otherwise. *)
Theorem build_failure_names_build_log w self y ant :
  marker_present self y = false ->
  which w "ant" = Some ant -> ant <> "" ->
  let y1 := snd (ant_clean w (with_log (clean_log_path self) y)) in
  fst (ant_clean w (with_log (clean_log_path self) y)) = 0 ->
  fst (ant_build w (with_log (ant_log_path self) y1)) <> 0 ->
  _build w self (fresh y) =
    (Raise (BuckToolException
              (if _is_git self then RemedyGitClean (_buck_dir self)
               else RemedyRmBuild (_buck_dir self))),
     {| sys := snd (ant_build w (with_log (ant_log_path self) y1));
        trace := [PathExists (_build_success_file self); Print NotBuilt;
                  OpenWrite (clean_log_path self);
                  Spawn [ant; "clean"] (_buck_dir self);
                  OpenWrite (ant_log_path self);
                  Spawn [ant] (_buck_dir self);
                  Print (AntFailed (_buck_dir self) (ant_log_path self))] |}).
Proof.
  intros Hm Hant Hne y1 Hclean Hbuild. subst y1.
  unfold _build, _check_for_ant, _run_ant_clean, _run_ant, _print_ant_failure_and_exit,
    marker_present, with_log, fresh in *.
  fold (clean_log_path self) in *. fold (ant_log_path self) in *.
  run_m. rewrite Hm, Hant. simp.
  destruct ant as [|c a]; [done|]. cbn [PyStr.truthy negb]. simp.
  destruct (ant_clean w _) as [code y'] eqn:E. simp. subst code. rewrite ?E. simp.
  destruct (ant_build w _) as [code y''] eqn:E'. simp. rewrite ?E'. simp.
  apply Z.eqb_neq in Hbuild. rewrite Hbuild. simp.
  by destruct (_is_git self).
Qed.

(** ** The constructor *)

(** X11.  With no git detected, with the opt-out, or with no required
    version, the constructor is the build step alone: what [_build] does on
    the object is all that happens, and its exception, if any, is the
    constructor's. *)
Theorem init_without_version_check w bin project s :
  checks_version w bin project = false ->
  __init__ w bin project s =
    (match fst (_build w (constructed w bin project) s) with
     | Return _ => Return (constructed w bin project)
     | Raise e => Raise e
     end,
     snd (_build w (constructed w bin project) s)).
Proof.
  unfold checks_version, constructed, detects_git, marker_path_of, __init__.
  intros Hno. cbn [_is_git]. rewrite Hno.
  cbv [mbind mret M_bind M_ret].
  by destruct (_build w _ s) as [[[]|e] s'].
Qed.

(** X12.  Otherwise the constructor first runs [_checkout_and_clean] on the
    first entry of the required version, with the second entry as branch if
    there is one.  Any exception of that step, [RestartBuck] included, leaves
    the constructor at once, with the build step not started; the build step
    follows only a normal return. *)
Theorem init_checks_then_builds w bin project revision rest s :
  checks_version w bin project = true ->
  buck_version project = revision :: rest ->
  let self := constructed w bin project in
  __init__ w bin project s =
    match _checkout_and_clean w self revision (rest !! 0%nat) s with
    | (Return _, s') =>
        (match fst (_build w self s') with
         | Return _ => Return self
         | Raise e => Raise e
         end,
         snd (_build w self s'))
    | (Raise e, s') => (Raise e, s')
    end.
Proof.
  unfold checks_version, constructed, detects_git, marker_path_of, __init__.
  intros Hyes Hver. cbv zeta. cbn [_is_git]. rewrite Hyes, Hver.
  cbv [mbind mret M_bind M_ret]. cbn [lookup list_lookup default from_option length].
  unfold id.
  destruct rest as [|b rest]; cbn [Nat.ltb Nat.leb length lookup list_lookup].
  all: destruct (_checkout_and_clean w _ revision _ s) as [[[]|e] s']; [|done].
  all: by destruct (_build w _ s') as [[[]|e] s''].
Qed.

(** X13.  A constructor that returns has checked out nothing: the object it
    returns is the one it built at the start, no [git checkout] was run, and
    where the version was checked the checkout already was at the required
    revision. *)
Theorem init_return_means_no_checkout w bin project y self :
  fst (__init__ w bin project (fresh y)) = Return self ->
  self = constructed w bin project /\
  Forall (fun e => is_checkout e = false)
    (trace (snd (__init__ w bin project (fresh y)))) /\
  (checks_version w bin project = true ->
     Some (current_revision self y) = buck_version project !! 0%nat).
Proof.
  unfold checks_version, constructed, detects_git, marker_path_of, __init__,
    _checkout_and_clean, _revision_exists, _get_git_revision, _build, _check_for_ant,
    _run_ant_clean, _run_ant, _print_ant_failure_and_exit, current_revision, fresh.
  cbn [_is_git _buck_dir _build_success_file _buck_project].
  run_m.
  destruct (has_git_dir w _ && _ && _)%bool eqn:Hgit;
    destruct (has_no_buck_check project) eqn:Hchk;
    destruct (buck_version project) as [|revision rest] eqn:Hver;
    cbn [andb negb bool_decide decide_rel]; simp.
  all: destruct (which w "ant") as [[|c a]|] eqn:Eant; simp.
  all: repeat branch.
  all: try discriminate.
  all: intros [= <-]; split; [reflexivity|]; split; [repeat constructor|].
  all: try discriminate.
  all: intros _; f_equal; by apply String.eqb_eq.
Qed.

(** ** More on version identity *)

(** X14.  With no fake version in the environment (unset, or set to the
    empty string), a [.fakebuckversion] whose content is not blank gives the
    identity: its content without the surrounding whitespace.  The file is
    looked for and read, the warning is printed, and nothing is asked of
    [buck_version] or git. *)
Theorem fake_version_file_wins w self y content :
  PyStr.truthy_opt (environ w !! "BUCK_FAKE_VERSION") = false ->
  files y !! fake_version_file_path self = Some content ->
  PyStr.strip content <> "" ->
  _get_buck_version_uid w self (fresh y) =
    (Return (PyStr.strip content),
     {| sys := y;
        trace := [PathExists (fake_version_file_path self);
                  OpenRead (fake_version_file_path self);
                  Print (FakingVersion (PyStr.strip content))] |}).
Proof.
  intros Henv Hfile Hne.
  unfold _get_buck_version_uid, fresh. fold (fake_version_file_path self).
  rewrite Henv. run_m. simp. rewrite Hfile. simp. rewrite Hfile. simp.
  destruct (PyStr.strip content) as [|c v]; [done|]. reflexivity.
Qed.


(** X16.  With no fake version and no clean version, the opt-out (or the
    absence of a required version) gives the dirty identity at once: local
    changes are not looked for, nothing is printed and nothing is asked,
    terminal or not. *)
Theorem opt_out_gives_dirty_quietly w self y :
  no_fake_override w self y = true ->
  get_clean_buck_version w y (PyStr.eqb_opt (_is_buck_repo_dirty_override self) "1")
    = None ->
  (has_no_buck_check (_buck_project self)
   || bool_decide (buck_version (_buck_project self) = []))%bool = true ->
  let r := _get_buck_version_uid w self (fresh y) in
  fst r = Return (dirty_buck_version w y) /\
  sys (snd r) = y /\
  Forall (fun e => is_spawn e = false /\ is_print e = false) (trace (snd r)).
Proof.
  intros Hfake Hclean Hopt r. subst r.
  apply andb_true_iff in Hfake as [Henv Hfile].
  apply negb_true_iff in Henv, Hfile.
  unfold _get_buck_version_uid, fake_file_version, fresh in *.
  fold (fake_version_file_path self) in *.
  rewrite Henv, Hopt. run_m.
  destruct (files y !! fake_version_file_path self) as [content|] eqn:Efile; simp.
  all: rewrite ?Efile; simp.
  all: rewrite ?Hfile, ?Henv; simp.
  all: rewrite Hclean; simp.
  all: repeat split; repeat constructor.
Qed.


(** ** Local changes *)

Lemma truthy_rstrip s : PyStr.truthy (PyStr.rstrip s) = has_nonspace s.
Proof.
  induction s as [|c s IH]; [done|]. cbn [PyStr.rstrip has_nonspace].
  destruct (PyStr.rstrip s) eqn:E; cbn in IH; rewrite <- IH.
  - by destruct (PyStr.is_space c).
  - by rewrite orb_true_r.
Qed.

Lemma has_nonspace_lstrip s : has_nonspace (PyStr.lstrip s) = has_nonspace s.
Proof.
  induction s as [|c s IH]; [done|]. cbn [PyStr.lstrip has_nonspace].
  destruct (PyStr.is_space c) eqn:E; [exact IH|]. cbn. by rewrite E.
Qed.

(** What is left after [strip] is non-empty exactly when the string has a
    character that is not whitespace. *)
Lemma truthy_strip s : PyStr.truthy (PyStr.strip s) = has_nonspace s.
Proof. unfold PyStr.strip. by rewrite truthy_rstrip, has_nonspace_lstrip. Qed.

(** X18.  There are local changes exactly when the repository is
    version-controlled and [git ls-files -m] prints something other than
    whitespace; the command is run only for a version-controlled
    repository, and the state is left as it was. *)
Theorem local_changes_iff_nonblank_output w self y :
  _has_local_changes w self (fresh y) =
    (Return (_is_git self && has_nonspace (git_ls_files_m w y))%bool,
     {| sys := y;
        trace := if _is_git self
                 then [Spawn ["git"; "ls-files"; "-m"] (_buck_dir self)]
                 else [] |}).
Proof.
  unfold _has_local_changes, fresh. run_m.
  destruct (_is_git self); simp; [|done]. by rewrite truthy_strip.
Qed.

(** ** Paths under the buck directory *)



(** ** The Java classpath *)

Lemma classpath_loop acc lines :
  foldl (fun classpath_entries line =>
           let line := PyStr.strip line in
           if PyStr.startswith_char line "#" then classpath_entries
           else (classpath_entries ++ [line])%list)
        acc lines
  = (acc ++ List.filter (fun line => negb (PyStr.startswith_char line "#"))
              (map PyStr.strip lines))%list.
Proof.
  revert acc. induction lines as [|l lines IH]; intros acc; cbn [foldl map List.filter].
  - by rewrite app_nil_r.
  - rewrite IH. destruct (PyStr.startswith_char (PyStr.strip l) "#"); cbn [negb]; [done|].
    by rewrite <- app_assoc.
Qed.

(** X20.  For a [programs/classpaths] that exists, the classpath is made of
    the lines of the file, each without its surrounding whitespace, except
    those that then start with [#]: each one joined to the buck directory,
    all of them joined by the path separator.  Blank lines are not skipped.
    The file is read and nothing else is done. *)
Theorem java_classpath_of_file pathsep self y content :
  files y !! PosixPath.join (_buck_dir self) ["programs"; "classpaths"] = Some content ->
  _get_java_classpath pathsep self (fresh y) =
    (Return
       (String.concat pathsep
          (map (_join_buck_dir self)
             (List.filter (fun line => negb (PyStr.startswith_char line "#"))
                (map PyStr.strip (Py.readlines content))))),
     {| sys := y;
        trace := [OpenRead (PosixPath.join (_buck_dir self) ["programs"; "classpaths"])] |}).
Proof.
  intros Hfile. unfold _get_java_classpath, classpath_entries, fresh. run_m. simp.
  rewrite Hfile. simp. by rewrite classpath_loop.
Qed.

(** X21.  A comment line, indented or not, adds nothing to the entries:
    with it or without it the entries are the same. *)
Theorem classpath_skips_comment_lines before line after :
  is_comment_line line = true ->
  classpath_entries (before ++ line :: after) = classpath_entries (before ++ after).
Proof.
  unfold is_comment_line, classpath_entries. intros Hc.
  rewrite !classpath_loop, !map_app, !List.filter_app. cbn [map List.filter].
  by rewrite Hc.
Qed.

(** ** The arguments for the Java process *)

(** X22.  With [BUCK_REPOSITORY_DIRTY] set to a non-empty string, the
    arguments are the version identity, a commit timestamp of [-1], and a
    dirty flag that is 1 when the string is ["1"] and otherwise follows
    [buck_version.is_dirty]: any other value hides the timestamp without
    forcing the flag.  An exception of the identity resolution is the
    method's own. *)
Theorem extra_java_args_under_override w is_dirty self s v :
  _is_buck_repo_dirty_override self = Some v ->
  v <> "" ->
  _get_extra_java_args w is_dirty self s =
    match _get_buck_version_uid w self s with
    | (Return uid, s') =>
        (Return ["-Dbuck.git_commit=" +:+ uid;
                 "-Dbuck.git_commit_timestamp=-1";
                 "-Dbuck.git_dirty=" +:+
                   (if (String.eqb v "1" || is_dirty (sys s'))%bool then "1" else "0")],
         s')
    | (Raise e, s') => (Raise e, s')
    end.
Proof.
  intros Hov Hv. unfold _get_extra_java_args, _get_git_commit_timestamp.
  rewrite Hov. destruct v as [|c v]; [done|].
  cbv [mbind mret M_bind M_ret get_sys].
  by destruct (_get_buck_version_uid w self s) as [[uid|e] s'].
Qed.

(** ** The further properties at work *)

(** [readlines] loses nothing: the lines, put end to end, are the file. *)
Lemma readlines_concat content : String.concat "" (Py.readlines content) = content.
Proof.
  induction content as [|c r IH]; [done|]. cbn [Py.readlines].
  destruct (Ascii.eqb c "010").
  - cbn [String.concat]. destruct (Py.readlines r); cbn in IH |- *; by rewrite <- IH.
  - destruct (Py.readlines r) as [|l ls]; cbn in IH |- *; [by rewrite <- IH|].
    destruct ls; cbn in IH |- *; by rewrite <- IH.
Qed.

Lemma get_ant_env_keeps_caller_options_witness :
  get_ant_env {[ "ANT_OPTS" := "-Dfile.encoding=UTF-8 -Xmx2g" ]} 1000
    = {[ "ANT_OPTS" := "-Dfile.encoding=UTF-8 -Xmx2g" ]}.
Proof.
  apply (get_ant_env_keeps_caller_options
           {[ "ANT_OPTS" := "-Dfile.encoding=UTF-8 -Xmx2g" ]} 1000).
  intros E. vm_compute in E. discriminate.
Defined.

Lemma fetch_failure_is_fatal_witness :
  fst (_checkout_and_clean (staged_world 1 128 0 0 0 (Some "/usr/bin/ant"))
         (example_repo true None) "abc123" None (fresh built_checkout))
    = Raise (BuckToolException FetchFailed).
Proof.
  rewrite (fetch_failure_is_fatal (staged_world 1 128 0 0 0 (Some "/usr/bin/ant"))
             (example_repo true None) "abc123" None built_checkout);
    [reflexivity | discriminate | discriminate].
Defined.

Lemma checkout_failure_keeps_marker_witness :
  let w := staged_world 0 0 1 0 0 (Some "/usr/bin/ant") in
  let self := example_repo true None in
  let r := _checkout_and_clean w self "abc123" None (fresh built_checkout) in
  fst r = Raise (BuckToolException (UpdateFailed "abc123")) /\
  sys (snd r) = snd (git_checkout w "abc123" built_checkout) /\
  Forall (fun e => is_remove e = false /\ is_ant e = false) (trace (snd r)).
Proof.
  intros w self.
  apply (checkout_failure_keeps_marker w self "abc123" None built_checkout);
    [reflexivity | discriminate | discriminate].
Defined.

Lemma fetch_only_when_revision_missing_witness :
  let w := staged_world 1 0 0 0 0 (Some "/usr/bin/ant") in
  let self := example_repo true None in
  take 3 (trace (snd (_checkout_and_clean w self "abc123" (Some "master")
                        (fresh built_checkout)))) =
    [Spawn ["git"; "cat-file"; "-e"; "abc123"] "/opt/buck";
     Print (RevisionNotAvailable "abc123");
     Spawn ["git"; "fetch"; "origin"; "master"] "/opt/buck"].
Proof.
  intros w self.
  apply (fetch_only_when_revision_missing w self "abc123" (Some "master") built_checkout).
  discriminate.
Defined.

Lemma normal_return_means_untouched_witness :
  let w := staged_world 0 0 0 0 0 (Some "/usr/bin/ant") in
  let self := example_repo true None in
  let r := _checkout_and_clean w self "abc123" None (fresh unbuilt_checkout) in
  current_revision self unbuilt_checkout = "abc123" /\ sys (snd r) = unbuilt_checkout.
Proof.
  intros w self.
  apply (normal_return_means_untouched w self "abc123" None unbuilt_checkout).
  reflexivity.
Defined.

Lemma build_stops_at_failed_clean_witness :
  fst (_build (staged_world 0 0 0 2 0 (Some "/usr/bin/ant")) (example_repo true None)
         (fresh unbuilt_checkout))
    = Raise (BuckToolException (RemedyGitClean "/opt/buck")).
Proof.
  rewrite (build_stops_at_failed_clean (staged_world 0 0 0 2 0 (Some "/usr/bin/ant"))
             (example_repo true None) unbuilt_checkout "/usr/bin/ant");
    [reflexivity | reflexivity | reflexivity | discriminate | discriminate].
Defined.

Lemma build_needs_ant_witness :
  _build (staged_world 0 0 0 0 0 None) (example_repo true None) (fresh unbuilt_checkout) =
    (Raise (BuckToolException (NoAnt true)),
     {| sys := unbuilt_checkout;
        trace := [PathExists "/opt/buck/build/successful-build"; Print NotBuilt] |}).
Proof.
  apply (build_needs_ant (staged_world 0 0 0 0 0 None) (example_repo true None)
           unbuilt_checkout); reflexivity.
Defined.

Lemma build_failure_names_build_log_witness :
  fst (_build (staged_world 0 0 0 0 1 (Some "/usr/bin/ant")) (example_repo false None)
         (fresh unbuilt_checkout))
    = Raise (BuckToolException (RemedyRmBuild "/opt/buck")).
Proof.
  rewrite (build_failure_names_build_log (staged_world 0 0 0 0 1 (Some "/usr/bin/ant"))
             (example_repo false None) unbuilt_checkout "/usr/bin/ant");
    [reflexivity | reflexivity | reflexivity | discriminate | reflexivity | discriminate].
Defined.

Lemma init_without_version_check_witness :
  fst (__init__ gitless_world "/opt/buck/bin" example_project (fresh unbuilt_checkout))
    = Return (constructed gitless_world "/opt/buck/bin" example_project).
Proof.
  rewrite (init_without_version_check gitless_world "/opt/buck/bin" example_project
             (fresh unbuilt_checkout)); reflexivity.
Defined.

Lemma init_checks_then_builds_witness :
  let w := staged_world 0 0 0 0 0 (Some "/usr/bin/ant") in
  fst (__init__ w "/opt/buck/bin" example_project (fresh built_checkout))
    = Raise RestartBuck.
Proof.
  intros w.
  rewrite (init_checks_then_builds w "/opt/buck/bin" example_project "abc123" []
             (fresh built_checkout)); reflexivity.
Defined.

Lemma init_return_means_no_checkout_witness :
  let w := staged_world 0 0 0 0 0 (Some "/usr/bin/ant") in
  let r := __init__ w "/opt/buck/bin" example_project (fresh unbuilt_checkout) in
  Forall (fun e => is_checkout e = false) (trace (snd r)) /\
  marker_present (constructed w "/opt/buck/bin" example_project) (sys (snd r)) = true.
Proof.
  intros w r. split; [|reflexivity].
  apply (init_return_means_no_checkout w "/opt/buck/bin" example_project unbuilt_checkout
           (constructed w "/opt/buck/bin" example_project)).
  reflexivity.
Defined.

Lemma fake_version_file_wins_witness :
  fst (_get_buck_version_uid (example_world ∅ false "" 0 "" (Some "abc123"))
         (example_repo true None) (fresh faked_checkout))
    = Return "v7".
Proof.
  rewrite (fake_version_file_wins (example_world ∅ false "" 0 "" (Some "abc123"))
             (example_repo true None) faked_checkout " v7
");
    [reflexivity | reflexivity | reflexivity | discriminate].
Defined.


Lemma opt_out_gives_dirty_quietly_witness :
  let w := example_world ∅ true "y" 0 "src/Main.java" None in
  let r := _get_buck_version_uid w opted_out_repo (fresh unbuilt_checkout) in
  fst r = Return "dirty-1f3a" /\
  sys (snd r) = unbuilt_checkout /\
  Forall (fun e => is_spawn e = false /\ is_print e = false) (trace (snd r)).
Proof.
  intros w.
  apply (opt_out_gives_dirty_quietly w opted_out_repo unbuilt_checkout); reflexivity.
Defined.


Lemma java_classpath_of_file_witness :
  fst (_get_java_classpath ":" (example_repo true None) (fresh classpaths_checkout))
    = Return "/opt/buck/build/classes:/opt/buck/third-party/java/guava.jar".
Proof.
  rewrite (java_classpath_of_file ":" (example_repo true None) classpaths_checkout
             "build/classes
  # third-party
third-party/java/guava.jar"); reflexivity.
Defined.

Lemma classpath_skips_comment_lines_witness :
  classpath_entries (["a.jar
"] ++ "   # note
" :: ["b.jar"]) = classpath_entries (["a.jar
"] ++ ["b.jar"]).
Proof.
  apply classpath_skips_comment_lines. reflexivity.
Defined.

Lemma extra_java_args_under_override_witness :
  let w := example_world ∅ false "" 0 "" (Some "abc123") in
  fst (_get_extra_java_args w (fun _ => false) (example_repo true (Some "0"))
         (fresh unbuilt_checkout))
    = Return ["-Dbuck.git_commit=abc123";
              "-Dbuck.git_commit_timestamp=-1";
              "-Dbuck.git_dirty=0"].
Proof.
  intros w.
  rewrite (extra_java_args_under_override w (fun _ => false)
             (example_repo true (Some "0")) (fresh unbuilt_checkout) "0");
    [reflexivity | reflexivity | discriminate].
Defined.

Lemma get_ant_env_heap_always_set_witness :
  get_ant_env {[ "ANT_OPTS" := "-Dfoo=1"; "JAVA_HOME" := "/usr/lib/jvm" ]} 1000
    !! "JAVA_HOME" = Some "/usr/lib/jvm".
Proof.
  rewrite (proj2 (get_ant_env_heap_always_set
                    {[ "ANT_OPTS" := "-Dfoo=1"; "JAVA_HOME" := "/usr/lib/jvm" ]} 1000));
    [reflexivity | discriminate].
Defined.
